(** * nvrtcWrapper: JIT driver of the XQA attention kernel

    A shallow embedding of
    [cpp/tensorrt_llm/kernels/decoderMaskedMultiheadAttention/decoderXQAImplJIT/nvrtcWrapper/src/nvrtcWrapper.cpp]
    and the properties of its flag derivation, of the two-stage compilation
    driver and of the last-error string.

    Conventions of the embedding:
    - [unsigned int] / [uint32_t] values are [N], every operation that can
      leave the 32-bit range has its reduction modulo [2^32] written out;
      [int] values are [Z];
    - [std::string] is [string], [std::vector<T>] is [list T],
      [std::unordered_map<std::string, std::string>] is [gmap string string];
    - the global [gErrorString] and the calls made to the NVRTC and
      nvPTXCompiler libraries are threaded through a state ([World]);
    - a C++ function body is a statement ([Stmt]) that either falls through to
      the next statement, executes [return], or does not return at all
      (failed [TLLM_CHECK], undefined behaviour). *)

From Stdlib Require Import ZArith NArith Ascii String Strings.Byte.
From stdpp Require Import gmap strings list fin_maps pretty.

Open Scope string_scope.
Open Scope list_scope.
Open Scope N_scope.

(** ** Declarations taken from the headers *)

(** Modelled from the spec: the status codes of [nvrtcWrapper.h], which is not
    part of the sources at hand (Success, InvalidInput, InternalError). *)
Inductive tllmXqaJitStatus : Type :=
  | TLLM_XQA_JIT_SUCCESS
  | TLLM_XQA_JIT_INVALID_INPUT
  | TLLM_XQA_JIT_INTERNAL_ERROR.

(** Modelled from the spec: the kernel-type selector of [nvrtcWrapper.h], three
    variants (standard multi-head, grouped-matrix-multiply, low-precision MLA). *)
Inductive tllmXqaJitKernelType : Type :=
  | TLLM_XQA_JIT_HMMA
  | TLLM_XQA_JIT_QGMMA
  | TLLM_XQA_JIT_MLA.

(** Modelled from the spec: [tensorrt_llm::kernels::Data_type] of
    [multiHeadAttentionCommon.h].  The four enumerators the wrapper compares
    against are named; every other value of the field is [DATA_TYPE_OTHER]. *)
Inductive Data_type : Type :=
  | DATA_TYPE_FP16
  | DATA_TYPE_BF16
  | DATA_TYPE_E4M3
  | DATA_TYPE_INT8
  | DATA_TYPE_OTHER (tag : Z).

#[global] Instance tllmXqaJitStatus_eq_dec : EqDecision tllmXqaJitStatus.
Proof. solve_decision. Defined.
#[global] Instance tllmXqaJitKernelType_eq_dec : EqDecision tllmXqaJitKernelType.
Proof. solve_decision. Defined.
#[global] Instance Data_type_eq_dec : EqDecision Data_type.
Proof. solve_decision. Defined.

(** Modelled from the spec: the configuration record [tllmXqaJitContext] of
    [nvrtcWrapper.h], with the fields the wrapper reads. *)
Record tllmXqaJitContext : Type := {
  sm : Z;
  head_size : N;
  num_q_heads : N;
  num_kv_heads : N;
  beam_width : N;
  tokens_per_block : N;
  multi_query_tokens : bool;
  q_seq_len : N;
  paged_kv_cache : bool;
  data_type : Data_type;
  kv_cache_data_type : Data_type;
  kernel_type : tllmXqaJitKernelType;
  fp8_output : bool;
  use_input_kv : bool;
  rope_style : Z
}.

Definition UINT_MAX : N := 4294967295.

(** The values a caller can store in the [unsigned int] fields. *)
Definition context_in_range (c : tllmXqaJitContext) : Prop :=
  head_size c <= UINT_MAX /\ num_q_heads c <= UINT_MAX /\
  num_kv_heads c <= UINT_MAX /\ beam_width c <= UINT_MAX /\
  tokens_per_block c <= UINT_MAX /\ q_seq_len c <= UINT_MAX.

(** ** Machine arithmetic and the C library *)

(** Reduction of an [unsigned int] result. *)
Definition wrap32 (n : N) : N := n mod 2 ^ 32.

(** [a % b] on [unsigned int]: no value when [b] is zero. *)
Definition urem (a b : N) : option N :=
  if b =? 0 then None else Some (a mod b).

(** [a / b] on [unsigned int]: no value when [b] is zero. *)
Definition udiv (a b : N) : option N :=
  if b =? 0 then None else Some (a / b).

(** [std::to_string] on [unsigned int] and on [int]: the decimal numeral. *)
Definition to_string_unsigned (n : N) : string := pretty n.
Definition to_string_int (z : Z) : string := pretty z.

Definition NUL : byte := x00.

(** [s.c_str()]: the characters of [s] followed by the terminator. *)
Definition c_str (s : string) : list byte := (list_byte_of_string s ++ [NUL])%list.

(** The bytes [strcpy] reads from its source: up to the first terminator. *)
Fixpoint until_NUL (src : list byte) : list byte :=
  match src with
  | [] => []
  | b :: rest => if Byte.eqb b NUL then [] else b :: until_NUL rest
  end.

(** [memcpy(dst, src, n)] with [n = length src] on a destination buffer of
    [length dst] bytes; writing past the end of the buffer is undefined. *)
Definition memcpy (dst src : list byte) : option (list byte) :=
  if (List.length src <=? List.length dst)%nat
  then Some (src ++ drop (List.length src) dst)%list
  else None.

(** [strcpy(dst, src)]: the source up to its terminator, and the terminator. *)
Definition strcpy (dst src : list byte) : option (list byte) :=
  memcpy dst (until_NUL src ++ [NUL])%list.

(** ** Flags that do not depend on the state *)

Definition getMacroFlag (name value : string) : string :=
  "-D" +:+ name +:+ "=" +:+ value.

Definition getSMFlag (SM : Z) : string :=
  let smStr := to_string_int SM in
  let smStr :=
    if ((SM =? 90) || (SM =? 120) || (SM =? 121))%Z then smStr +:+ "a" else smStr in
  "-arch=sm_" +:+ smStr.

Definition getPTXSMFlag (SM : Z) : string :=
  if ((SM =? 120) || (SM =? 121))%Z then "-arch=compute_89"
  else
    let smStr := to_string_int SM in
    let smStr := if (SM =? 90)%Z then smStr +:+ "a" else smStr in
    "-arch=compute_" +:+ smStr.

(** ** The libraries behind the wrapper *)

Inductive nvrtcResult : Type :=
  | NVRTC_SUCCESS
  | NVRTC_ERROR (code : positive).

Inductive nvPTXCompileResult : Type :=
  | NVPTXCOMPILE_SUCCESS
  | NVPTXCOMPILE_ERROR (code : positive).

(** Opaque handles of the two libraries. *)
Definition nvrtcProgram : Type := N.
Definition nvPTXCompilerHandle : Type := N.

(** Modelled from the spec: the embedded kernel sources of the generated
    [xqa_sources.h] (standard, grouped-matrix-multiply, low-precision MLA). *)
Inductive KernelSource : Type :=
  | mha_cu_content
  | mha_sm90_cu_content
  | mla_sm120_cu_content.

(** One entry per call that leaves the wrapper, with the arguments passed by
    value.  [puts] and [printf] only occur in builds without [NDEBUG]. *)
Inductive LibCall : Type :=
  | call_nvrtcCreateProgram (src : KernelSource)
  | call_nvrtcCompileProgram (prog : nvrtcProgram) (options : list string)
  | call_nvrtcGetProgramLogSize (prog : nvrtcProgram)
  | call_nvrtcGetProgramLog (prog : nvrtcProgram)
  | call_nvrtcGetPTXSize (prog : nvrtcProgram)
  | call_nvrtcGetPTX (prog : nvrtcProgram)
  | call_nvrtcGetCUBINSize (prog : nvrtcProgram)
  | call_nvrtcGetCUBIN (prog : nvrtcProgram)
  | call_nvrtcDestroyProgram (prog : nvrtcProgram)
  | call_nvPTXCompilerCreate (ptx_size : N) (ptx : list byte)
  | call_nvPTXCompilerCompile (compiler : nvPTXCompilerHandle) (options : list string)
  | call_nvPTXCompilerGetCompiledProgramSize (compiler : nvPTXCompilerHandle)
  | call_nvPTXCompilerGetCompiledProgram (compiler : nvPTXCompilerHandle)
  | call_nvPTXCompilerDestroy (compiler : nvPTXCompilerHandle)
  | call_puts (text : string)
  | call_printf (format : string) (args : list string).

(** What the libraries answer.  Every answer may depend on all the calls made
    before it; a function with an out-parameter maps the old contents of the
    parameter to the new ones. *)
Record Externals : Type := {
  nvrtcCreateProgram : list LibCall -> KernelSource -> nvrtcResult * nvrtcProgram;
  nvrtcCompileProgram : list LibCall -> nvrtcProgram -> list string -> nvrtcResult;
  nvrtcGetProgramLogSize : list LibCall -> nvrtcProgram -> nvrtcResult * N;
  nvrtcGetProgramLog : list LibCall -> nvrtcProgram -> list byte -> nvrtcResult * list byte;
  nvrtcGetPTXSize : list LibCall -> nvrtcProgram -> nvrtcResult * N;
  nvrtcGetPTX : list LibCall -> nvrtcProgram -> list byte -> nvrtcResult * list byte;
  nvrtcGetCUBINSize : list LibCall -> nvrtcProgram -> N -> nvrtcResult * N;
  nvrtcGetCUBIN : list LibCall -> nvrtcProgram -> list byte -> nvrtcResult * list byte;
  nvrtcDestroyProgram : list LibCall -> nvrtcProgram -> nvrtcResult;
  nvPTXCompilerCreate :
    list LibCall -> N -> list byte -> nvPTXCompileResult * nvPTXCompilerHandle;
  nvPTXCompilerCompile :
    list LibCall -> nvPTXCompilerHandle -> list string -> nvPTXCompileResult;
  nvPTXCompilerGetCompiledProgramSize :
    list LibCall -> nvPTXCompilerHandle -> nvPTXCompileResult * N;
  nvPTXCompilerGetCompiledProgram :
    list LibCall -> nvPTXCompilerHandle -> list byte -> nvPTXCompileResult * list byte;
  nvPTXCompilerDestroy : list LibCall -> nvPTXCompilerHandle -> nvPTXCompileResult
}.

(** ** State and control flow *)

(** The mutable state outside of the objects passed around: the file-scope
    [gErrorString] and the calls made so far, oldest first. *)
Record World : Type := {
  gErrorString : string;
  libcalls : list LibCall
}.

(** [std::string gErrorString;] at program start. *)
Definition initial_world : World := {| gErrorString := ""; libcalls := [] |}.

(** Why a call does not return to its caller. *)
Inductive Abort : Type :=
  | AssertionFailure   (* TLLM_CHECK on a false condition *)
  | DivisionByZero     (* unsigned % or / by zero *)
  | BufferOverflow.    (* strcpy / memcpy past the caller's buffer *)

(** What executing a statement of a function returning [R] leads to. *)
Inductive Flow (R A : Type) : Type :=
  | Next (a : A)
  | Return (r : R)
  | Stop (why : Abort).
Arguments Next {R A} a.
Arguments Return {R A} r.
Arguments Stop {R A} why.

Definition Stmt (R A : Type) : Type := World -> Flow R A * World.

(** What a call of a function returning [A] leads to. *)
Inductive Outcome (A : Type) : Type :=
  | Returned (a : A)
  | Aborted (why : Abort).
Arguments Returned {A} a.
Arguments Aborted {A} why.

Definition Fn (A : Type) : Type := World -> Outcome A * World.

Definition pure {R A} (a : A) : Stmt R A := fun w => (Next a, w).

Definition seq {R A B} (c : Stmt R A) (k : A -> Stmt R B) : Stmt R B :=
  fun w =>
    match c w with
    | (Next a, w') => k a w'
    | (Return r, w') => (Return r, w')
    | (Stop why, w') => (Stop why, w')
    end.

Definition return_ {R A} (r : R) : Stmt R A := fun w => (Return r, w).

Definition abort {R A} (why : Abort) : Stmt R A := fun w => (Stop why, w).

(** A function from its body; control reaching the end of the body of a
    function in this file always carries the value of its last [return]. *)
Definition body {R} (c : Stmt R R) : Fn R :=
  fun w =>
    match c w with
    | (Next r, w') | (Return r, w') => (Returned r, w')
    | (Stop why, w') => (Aborted why, w')
    end.

(** A call expression inside a body. *)
Definition call {R A} (f : Fn A) : Stmt R A :=
  fun w =>
    match f w with
    | (Returned a, w') => (Next a, w')
    | (Aborted why, w') => (Stop why, w')
    end.

Notation "'let*' x ':=' c 'in' k" := (seq c (fun x => k))
  (at level 10, x pattern, c at level 100, k at level 200,
   format "'[v' 'let*'  x  ':='  c  'in' '/' k ']'").
Notation "c ';;;' k" := (seq c (fun _ => k))
  (at level 100, k at level 200, right associativity,
   format "'[v' c  ';;;' '/' k ']'").

(** [setErrorString]: assignment to the global string. *)
Definition setErrorString {R} (errorString : string) : Stmt R unit :=
  fun w => (Next tt, {| gErrorString := errorString; libcalls := libcalls w |}).

(** A library call: the answer is computed from the calls made so far, and the
    call is appended to them. *)
Definition extern {R A} (c : LibCall) (answer : list LibCall -> A) : Stmt R A :=
  fun w => (Next (answer (libcalls w)),
            {| gErrorString := gErrorString w; libcalls := (libcalls w ++ [c])%list |}).

(** Modelled from the spec: [TLLM_CHECK] of the common headers, an unconditional
    internal assertion that is not a recoverable error. *)
Definition TLLM_CHECK {R} (cond : bool) : Stmt R unit :=
  if cond then pure tt else abort AssertionFailure.

(** The three status-checking macros.  Their [return] leaves the enclosing
    function; [leave] says what the caller then sees: the status, together
    with the objects the function has written through its pointer arguments. *)
Definition CHECK_NVRTC_ERROR {R} (leave : tllmXqaJitStatus -> R)
    (content : Stmt R nvrtcResult) : Stmt R unit :=
  let* status_ := content in
  match status_ with
  | NVRTC_SUCCESS => pure tt
  | NVRTC_ERROR _ =>
      setErrorString "NVRTC Internal Error";;;
      return_ (leave TLLM_XQA_JIT_INTERNAL_ERROR)
  end.

Definition CHECK_TLLM_XQA_JIT_ERROR {R} (leave : tllmXqaJitStatus -> R)
    (content : Stmt R tllmXqaJitStatus) : Stmt R unit :=
  let* status_ := content in
  match status_ with
  | TLLM_XQA_JIT_SUCCESS => pure tt
  | _ => return_ (leave status_)
  end.

Definition CHECK_NVPTX_ERROR {R} (leave : tllmXqaJitStatus -> R)
    (content : Stmt R nvPTXCompileResult) : Stmt R unit :=
  let* status_ := content in
  match status_ with
  | NVPTXCOMPILE_SUCCESS => pure tt
  | NVPTXCOMPILE_ERROR _ =>
      setErrorString "nvPTXCompiler Internal Error";;;
      return_ (leave TLLM_XQA_JIT_INTERNAL_ERROR)
  end.

(** [unsigned % unsigned] and [unsigned / unsigned] as statements. *)
Definition unsigned_rem {R} (a b : N) : Stmt R N :=
  match urem a b with Some r => pure r | None => abort DivisionByZero end.

Definition unsigned_div {R} (a b : N) : Stmt R N :=
  match udiv a b with Some q => pure q | None => abort DivisionByZero end.

(** [v.push_back(x)] and [v.resize(n)] (new elements are zero). *)
Definition push_back {A} (v : list A) (x : A) : list A := (v ++ [x])%list.

Definition resize (v : list byte) (n : N) : list byte :=
  take (N.to_nat n) (v ++ replicate (N.to_nat n) NUL)%list.

(** ** The compilation unit *)

Record _tllmXqaJitProgram : Type := {
  program : nvrtcProgram;
  context : tllmXqaJitContext;
  (* For SM120 two-stage compilation: store cubin data from nvPTXCompiler *)
  cubin_data : list byte;
  use_stored_cubin : bool
}.

Definition set_cubin_data (prog : _tllmXqaJitProgram) (data : list byte)
  : _tllmXqaJitProgram :=
  {| program := program prog; context := context prog;
     cubin_data := data; use_stored_cubin := use_stored_cubin prog |}.

Definition set_use_stored_cubin (prog : _tllmXqaJitProgram) (b : bool)
  : _tllmXqaJitProgram :=
  {| program := program prog; context := context prog;
     cubin_data := cubin_data prog; use_stored_cubin := b |}.

Section Wrapper.

(** The order in which a range-for visits a [std::unordered_map] is decided by
    the hash table of the C++ library; all that is known is that every entry is
    visited once. *)
Variable iterate : gmap string string -> list (string * string).
Hypothesis iterate_perm : forall m, iterate m ≡ₚ map_to_list m.

(** The libraries the wrapper is linked against. *)
Variable ext : Externals.

(** Whether the translation unit is compiled with [NDEBUG] defined. *)
Variable NDEBUG : bool.

(** The lambda that initialises [m_tilesize] in [getMacroFlags]. *)
Definition m_tilesize (context : tllmXqaJitContext) (num_q_heads_over_kv : N) : N :=
  if negb (multi_query_tokens context) then num_q_heads_over_kv
  else if bool_decide (kernel_type context = TLLM_XQA_JIT_QGMMA) then 64
  else
    let m := wrap32 (q_seq_len context * num_q_heads_over_kv) in
    if m <? 16 then 16 else 32.

(** The text the debug build prints for the macro set. *)
Definition macros_dump (entries : list (string * string)) : string :=
  foldl (fun ss kv => ss +:+ kv.1 +:+ "=" +:+ kv.2 +:+ " ") "XQA Macros: " entries.

Definition getMacroFlags (context : tllmXqaJitContext) (result : list string)
  : Fn (tllmXqaJitStatus * list string) :=
  body (
    (* Macro name -> Macro value. *)
    let macros : gmap string string := ∅ in
    let head_size := head_size context in
    let num_q_heads := num_q_heads context in
    let num_kv_heads := num_kv_heads context in
    let* r := unsigned_rem num_q_heads num_kv_heads in
    (if negb (r =? 0) then
       setErrorString
         ("num_q_heads (" +:+ to_string_unsigned num_q_heads
          +:+ ") must be multiples of num_kv_heads ("
          +:+ to_string_unsigned num_kv_heads +:+ ").");;;
       return_ (TLLM_XQA_JIT_INVALID_INPUT, result)
     else pure tt);;;
    let* num_q_heads_over_kv := unsigned_div num_q_heads num_kv_heads in
    let beam_width := beam_width context in
    let macros :=
      if multi_query_tokens context then <["SPEC_DEC" := "1"]> macros else macros in
    (* MultiQueryToken kernels can handle either 16/32 for M direction per CTA. *)
    let m_tilesize := m_tilesize context num_q_heads_over_kv in
    let* macros :=
      if bool_decide (data_type context = DATA_TYPE_FP16) then
        pure (<["DTYPE" := "__half"]> (<["INPUT_FP16" := "1"]> macros))
      else if bool_decide (data_type context = DATA_TYPE_BF16) then
        pure (<["DTYPE" := "__nv_bfloat16"]> (<["INPUT_FP16" := "0"]> macros))
      else if bool_decide (data_type context = DATA_TYPE_E4M3) then
        TLLM_CHECK (bool_decide (kernel_type context = TLLM_XQA_JIT_MLA));;;
        pure macros
      else
        setErrorString
          ("data_type must be DATA_TYPE_FP16 or DATA_TYPE_BF16 for non-MLA kernels "
           +:+ "and DATA_TYPE_E4M3 for the MLA kernel");;;
        return_ (TLLM_XQA_JIT_INVALID_INPUT, result) in
    let macros := <["GENERATE_CUBIN" := "1"]> macros in
    let macros := <["NDEBUG" := "1"]> macros in
    let macros := <["HEAD_ELEMS" := to_string_unsigned head_size]> macros in
    let macros := <["BEAM_WIDTH" := to_string_unsigned beam_width]> macros in
    let* macros :=
      if bool_decide (kv_cache_data_type context = DATA_TYPE_INT8) then
        pure (<["CACHE_ELEM_ENUM" := "1"]> macros)
      else if bool_decide (kv_cache_data_type context = DATA_TYPE_E4M3) then
        pure (<["CACHE_ELEM_ENUM" := "2"]> macros)
      else
        (if bool_decide (data_type context = DATA_TYPE_FP16) then
           if bool_decide (kv_cache_data_type context ≠ DATA_TYPE_FP16) then
             setErrorString
               "kv_cache_data_type must be DATA_TYPE_FP16 when data_type is DATA_TYPE_FP16";;;
             return_ (TLLM_XQA_JIT_INVALID_INPUT, result)
           else pure tt
         else
           if bool_decide (kv_cache_data_type context ≠ DATA_TYPE_BF16) then
             setErrorString
               "kv_cache_data_type must be DATA_TYPE_BF16 when data_type is not DATA_TYPE_FP16";;;
             return_ (TLLM_XQA_JIT_INVALID_INPUT, result)
           else pure tt);;;
        pure (<["CACHE_ELEM_ENUM" := "0"]> macros) in
    let macros :=
      <["TOKENS_PER_PAGE" :=
          if paged_kv_cache context then to_string_unsigned (tokens_per_block context)
          else "0"]> macros in
    let macros := <["HEAD_GRP_SIZE" := to_string_unsigned num_q_heads_over_kv]> macros in
    let macros := <["M_TILESIZE" := to_string_unsigned m_tilesize]> macros in
    let macros := <["USE_CUSTOM_BARRIER" := "1"]> macros in
    (* Sliding window is not supported when spec dec is enabled. *)
    let macros :=
      <["SLIDING_WINDOW" := if multi_query_tokens context then "0" else "1"]> macros in
    let macros := <["LOW_PREC_OUTPUT" := if fp8_output context then "1" else "0"]> macros in
    let macros := <["USE_INPUT_KV" := if use_input_kv context then "1" else "0"]> macros in
    let macros := <["ROPE_STYLE" := to_string_int (rope_style context)]> macros in
    let macros := <["__FORCE_INCLUDE_CUDA_FP16_HPP_FROM_FP16_H__" := "1"]> macros in
    let macros := <["__FORCE_INCLUDE_CUDA_BF16_HPP_FROM_BF16_H__" := "1"]> macros in
    let result :=
      foldl (fun result macro => push_back result (getMacroFlag macro.1 macro.2))
        result (iterate macros) in
    (if NDEBUG then pure tt
     else extern (call_puts (macros_dump (iterate macros))) (fun _ => tt));;;
    return_ (TLLM_XQA_JIT_SUCCESS, result)).

Definition getBuildOptions (prog : _tllmXqaJitProgram) (result : list string)
  : Fn (tllmXqaJitStatus * list string) :=
  body (
    (* Common flags *)
    let result := push_back result "-dw" in
    let result := push_back result "--use_fast_math" in
    let result := push_back result "-default-device" in
    (* Arch *)
    let result := push_back result (getSMFlag (sm (context prog))) in
    let macros : list string := [] in
    let* (status, macros) := call (getMacroFlags (context prog) macros) in
    CHECK_TLLM_XQA_JIT_ERROR (fun status_ => (status_, result)) (pure status);;;
    (* Macros *)
    let result := foldl (fun result flag => push_back result flag) result macros in
    return_ (TLLM_XQA_JIT_SUCCESS, result)).

Definition getBuildOptionsPTX (prog : _tllmXqaJitProgram) (result : list string)
  : Fn (tllmXqaJitStatus * list string) :=
  body (
    (* Common flags *)
    let result := push_back result "-dw" in
    let result := push_back result "--use_fast_math" in
    let result := push_back result "-default-device" in
    (* Use PTX arch for two-stage compilation *)
    let result := push_back result (getPTXSMFlag (sm (context prog))) in
    let macros : list string := [] in
    let* (status, macros) := call (getMacroFlags (context prog) macros) in
    CHECK_TLLM_XQA_JIT_ERROR (fun status_ => (status_, result)) (pure status);;;
    (* Macros *)
    let result := foldl (fun result flag => push_back result flag) result macros in
    return_ (TLLM_XQA_JIT_SUCCESS, result)).

(** [createProgram] stores a new unit in [*prog]; the unit is returned with the
    status.  Its [program] member has no value until the library writes it. *)
Definition createProgram (context : tllmXqaJitContext)
  : Fn (tllmXqaJitStatus * _tllmXqaJitProgram) :=
  body (
    let src_content :=
      if bool_decide (kernel_type context = TLLM_XQA_JIT_MLA) then mla_sm120_cu_content
      else if bool_decide (kernel_type context = TLLM_XQA_JIT_QGMMA) then mha_sm90_cu_content
      else mha_cu_content in
    let* (created, handle) :=
      extern (call_nvrtcCreateProgram src_content)
        (fun past => nvrtcCreateProgram ext past src_content) in
    let prog :=
      {| program := handle; context := context;
         cubin_data := []; use_stored_cubin := false |} in
    CHECK_NVRTC_ERROR (fun status_ => (status_, prog)) (pure created);;;
    return_ (TLLM_XQA_JIT_SUCCESS, prog)).

(** The part of both branches of [compileProgram] that differs between the
    builds: with [NDEBUG] the result of [nvrtcCompileProgram] is checked
    directly, without it the program log is fetched and printed first. *)
Definition nvrtcCompile_checked (prog : _tllmXqaJitProgram) (options : list string)
    (log_format : string) : Stmt (tllmXqaJitStatus * _tllmXqaJitProgram) unit :=
  let leave := fun status_ : tllmXqaJitStatus => (status_, prog) in
  let compile :=
    extern (call_nvrtcCompileProgram (program prog) options)
      (fun past => nvrtcCompileProgram ext past (program prog) options) in
  if NDEBUG then CHECK_NVRTC_ERROR leave compile
  else
    let* err := compile in
    match err with
    | NVRTC_SUCCESS => pure tt
    | NVRTC_ERROR _ =>
        let* (got_size, logSize) :=
          extern (call_nvrtcGetProgramLogSize (program prog))
            (fun past => nvrtcGetProgramLogSize ext past (program prog)) in
        CHECK_NVRTC_ERROR leave (pure got_size);;;
        let log := resize [] logSize in
        let* (got_log, log) :=
          extern (call_nvrtcGetProgramLog (program prog))
            (fun past => nvrtcGetProgramLog ext past (program prog) log) in
        CHECK_NVRTC_ERROR leave (pure got_log);;;
        extern (call_printf log_format [string_of_list_byte (until_NUL log)])
          (fun _ => tt);;;
        CHECK_NVRTC_ERROR leave (pure err)
    end.

(** [compileProgram] works on the unit [prog] points to; the unit as it is when
    the function returns is returned with the status. *)
Definition compileProgram (prog : _tllmXqaJitProgram)
  : Fn (tllmXqaJitStatus * _tllmXqaJitProgram) :=
  body (
    let needsTwoStageCompilation :=
      ((sm (context prog) =? 120)%Z || (sm (context prog) =? 121)%Z)
      && bool_decide (kernel_type (context prog) = TLLM_XQA_JIT_HMMA) in
    if needsTwoStageCompilation then
      let leave := fun status_ : tllmXqaJitStatus => (status_, prog) in
      (if NDEBUG then pure tt
       else extern
              (call_printf
                 ("Using two-stage compilation for SM120: NVRTC (C++ -> PTX compute_89) + "
                  +:+ "nvPTXCompiler (PTX -> cubin sm_120)" +:+ String "010" "") [])
              (fun _ => tt));;;
      (* Stage 1: Compile C++ to PTX using compute_89 *)
      let ptx_options : list string := [] in
      let* (status, ptx_options) := call (getBuildOptionsPTX prog ptx_options) in
      CHECK_TLLM_XQA_JIT_ERROR leave (pure status);;;
      nvrtcCompile_checked prog ptx_options
        ("nvrtc PTX compilation error log:" +:+ String "010" "%s" +:+ String "010" "");;;
      let* (got_size, ptx_size) :=
        extern (call_nvrtcGetPTXSize (program prog))
          (fun past => nvrtcGetPTXSize ext past (program prog)) in
      CHECK_NVRTC_ERROR leave (pure got_size);;;
      let ptx_data := resize [] ptx_size in
      let* (got_ptx, ptx_data) :=
        extern (call_nvrtcGetPTX (program prog))
          (fun past => nvrtcGetPTX ext past (program prog) ptx_data) in
      CHECK_NVRTC_ERROR leave (pure got_ptx);;;
      (* Stage 2: Compile PTX to cubin for sm_120 using nvPTXCompiler *)
      let* (created, ptx_compiler) :=
        extern (call_nvPTXCompilerCreate ptx_size ptx_data)
          (fun past => nvPTXCompilerCreate ext past ptx_size ptx_data) in
      CHECK_NVPTX_ERROR leave (pure created);;;
      let ptx_compile_options : list string := ["--gpu-name=sm_120f"] in
      CHECK_NVPTX_ERROR leave
        (extern (call_nvPTXCompilerCompile ptx_compiler ptx_compile_options)
           (fun past => nvPTXCompilerCompile ext past ptx_compiler ptx_compile_options));;;
      let* (got_size, cubin_size) :=
        extern (call_nvPTXCompilerGetCompiledProgramSize ptx_compiler)
          (fun past => nvPTXCompilerGetCompiledProgramSize ext past ptx_compiler) in
      CHECK_NVPTX_ERROR leave (pure got_size);;;
      let prog := set_cubin_data prog (resize (cubin_data prog) cubin_size) in
      let* (got_cubin, cubin) :=
        extern (call_nvPTXCompilerGetCompiledProgram ptx_compiler)
          (fun past => nvPTXCompilerGetCompiledProgram ext past ptx_compiler (cubin_data prog)) in
      let prog := set_cubin_data prog cubin in
      let leave := fun status_ : tllmXqaJitStatus => (status_, prog) in
      CHECK_NVPTX_ERROR leave (pure got_cubin);;;
      let prog := set_use_stored_cubin prog true in
      let leave := fun status_ : tllmXqaJitStatus => (status_, prog) in
      CHECK_NVPTX_ERROR leave
        (extern (call_nvPTXCompilerDestroy ptx_compiler)
           (fun past => nvPTXCompilerDestroy ext past ptx_compiler));;;
      (if NDEBUG then pure tt
       else extern
              (call_printf
                 ("Two-stage compilation completed: PTX size=%zu, cubin size=%zu"
                  +:+ String "010" "")
                 [to_string_unsigned ptx_size; to_string_unsigned cubin_size])
              (fun _ => tt));;;
      return_ (TLLM_XQA_JIT_SUCCESS, prog)
    else
      let leave := fun status_ : tllmXqaJitStatus => (status_, prog) in
      let options : list string := [] in
      let* (status, options) := call (getBuildOptions prog options) in
      CHECK_TLLM_XQA_JIT_ERROR leave (pure status);;;
      nvrtcCompile_checked prog options
        ("nvrtc error log:" +:+ String "010" "%s" +:+ String "010" "");;;
      return_ (TLLM_XQA_JIT_SUCCESS, prog)).

(** ** The exported functions *)

Definition tllmXqaJitCreateAndCompileProgram (context : tllmXqaJitContext)
  : Fn (tllmXqaJitStatus * _tllmXqaJitProgram) :=
  body (
    let* (status, prog) := call (createProgram context) in
    CHECK_TLLM_XQA_JIT_ERROR (fun status_ => (status_, prog)) (pure status);;;
    let* (status, prog) := call (compileProgram prog) in
    CHECK_TLLM_XQA_JIT_ERROR (fun status_ => (status_, prog)) (pure status);;;
    return_ (TLLM_XQA_JIT_SUCCESS, prog)).

(** The second component is [*cubinSizeRet] after the call. *)
Definition tllmXqaJitGetCUBINSize (prog : _tllmXqaJitProgram) (cubinSizeRet : N)
  : Fn (tllmXqaJitStatus * N) :=
  body (
    (* For SM120 two-stage compilation, return stored cubin size *)
    if use_stored_cubin prog then
      let cubinSizeRet := N.of_nat (List.length (cubin_data prog)) in
      return_ (TLLM_XQA_JIT_SUCCESS, cubinSizeRet)
    else
      let* (got_size, cubinSizeRet) :=
        extern (call_nvrtcGetCUBINSize (program prog))
          (fun past => nvrtcGetCUBINSize ext past (program prog) cubinSizeRet) in
      CHECK_NVRTC_ERROR (fun status_ => (status_, cubinSizeRet)) (pure got_size);;;
      return_ (TLLM_XQA_JIT_SUCCESS, cubinSizeRet)).

(** The second component is the caller's buffer [cubin] after the call. *)
Definition tllmXqaJitGetCUBIN (prog : _tllmXqaJitProgram) (cubin : list byte)
  : Fn (tllmXqaJitStatus * list byte) :=
  body (
    (* For SM120 two-stage compilation, copy stored cubin data *)
    if use_stored_cubin prog then
      match memcpy cubin (cubin_data prog) with
      | Some cubin => return_ (TLLM_XQA_JIT_SUCCESS, cubin)
      | None => abort BufferOverflow
      end
    else
      let* (got_cubin, cubin) :=
        extern (call_nvrtcGetCUBIN (program prog))
          (fun past => nvrtcGetCUBIN ext past (program prog) cubin) in
      CHECK_NVRTC_ERROR (fun status_ => (status_, cubin)) (pure got_cubin);;;
      return_ (TLLM_XQA_JIT_SUCCESS, cubin)).

(** The second component is [*prog] after the call: [None] is [nullptr]. *)
Definition tllmXqaJitDestroyProgram (prog : _tllmXqaJitProgram)
  : Fn (tllmXqaJitStatus * option _tllmXqaJitProgram) :=
  body (
    CHECK_NVRTC_ERROR (fun status_ => (status_, Some prog))
      (extern (call_nvrtcDestroyProgram (program prog))
         (fun past => nvrtcDestroyProgram ext past (program prog)));;;
    return_ (TLLM_XQA_JIT_SUCCESS, None)).

(** [gErrorString.size() + 1]; a string is shorter than [SIZE_MAX], so the
    addition stays in range of [size_t]. *)
Definition tllmXqaJitGetLastErrorStringSize : Fn N :=
  body (fun w => (Return (N.of_nat (String.length (gErrorString w)) + 1), w)).

(** The result is the caller's buffer [output] after the call. *)
Definition tllmXqaJitGetLastErrorString (output : list byte) : Fn (list byte) :=
  body (fun w =>
    if bool_decide (gErrorString w = "") then (Return output, w)
    else
      match strcpy output (c_str (gErrorString w)) with
      | Some output => (Return output, w)
      | None => (Stop BufferOverflow, w)
      end).

End Wrapper.

(** ** Vocabulary of the statements *)

(** Decimal digits, and predicates on the characters of a string. *)
Definition is_digit (c : ascii) : bool :=
  let n := N_of_ascii c in (48 <=? n) && (n <=? 57).

Fixpoint string_forall (p : ascii -> bool) (s : string) : bool :=
  match s with
  | EmptyString => true
  | String c s' => p c && string_forall p s'
  end.

Fixpoint last_char (s : string) : option ascii :=
  match s with
  | EmptyString => None
  | String c EmptyString => Some c
  | String _ s' => last_char s'
  end.

Definition ends_in_digit (s : string) : bool :=
  match last_char s with Some c => is_digit c | None => false end.

Definition not_equals_sign (c : ascii) : bool := negb (Ascii.eqb c "=").
Definition not_NUL (c : ascii) : bool := negb (Ascii.eqb c zero).

(** [sub] occurs in [s]. *)
Definition contains (s sub : string) : Prop :=
  exists before after, s = before +:+ sub +:+ after.

(** The flag one macro definition is turned into. *)
Definition flag_of (macro : string * string) : string := getMacroFlag macro.1 macro.2.

(** A flag of the form [-D<name>=<v>]. *)
Definition is_macro_flag (name flag : string) : Prop :=
  exists value, flag = getMacroFlag name value.

(** [flags] holds [-D<name>=<value>], and no other flag defining [name]. *)
Definition only_flag (name value : string) (flags : list string) : Prop :=
  exists l1 l2 : list string,
    flags = (l1 ++ getMacroFlag name value :: l2)%list /\
    forall f, f ∈ (l1 ++ l2)%list -> ~ is_macro_flag name f.

(** [flags] holds no flag defining [name]. *)
Definition no_flag (name : string) (flags : list string) : Prop :=
  forall f, f ∈ flags -> ~ is_macro_flag name f.

(** The world after one more library call, and with another error string. *)
Definition logged (c : LibCall) (w : World) : World :=
  {| gErrorString := gErrorString w; libcalls := (libcalls w ++ [c])%list |}.

Definition with_error (e : string) (w : World) : World :=
  {| gErrorString := e; libcalls := libcalls w |}.

(** *** The decisions of [getMacroFlags] in one table

    [macro_verdict] lists the checks of [getMacroFlags] in the order the
    function makes them and [macro_entries] the assignments to [macros] on the
    path that passes all of them, latest first.  [getMacroFlags_run] below
    proves that this is what the function computes. *)

Inductive MacroVerdict : Type :=
  | MacrosAccepted (num_q_heads_over_kv : N)
  | MacrosRejected (message : string)
  | MacrosAborted (why : Abort).

Definition head_count_message (c : tllmXqaJitContext) : string :=
  "num_q_heads (" +:+ to_string_unsigned (num_q_heads c)
  +:+ ") must be multiples of num_kv_heads ("
  +:+ to_string_unsigned (num_kv_heads c) +:+ ").".

Definition data_type_message : string :=
  "data_type must be DATA_TYPE_FP16 or DATA_TYPE_BF16 for non-MLA kernels "
  +:+ "and DATA_TYPE_E4M3 for the MLA kernel".

Definition kv_fp16_message : string :=
  "kv_cache_data_type must be DATA_TYPE_FP16 when data_type is DATA_TYPE_FP16".

Definition kv_bf16_message : string :=
  "kv_cache_data_type must be DATA_TYPE_BF16 when data_type is not DATA_TYPE_FP16".

Definition kv_cache_verdict (c : tllmXqaJitContext) (q : N) : MacroVerdict :=
  match kv_cache_data_type c with
  | DATA_TYPE_INT8 | DATA_TYPE_E4M3 => MacrosAccepted q
  | kv =>
      match data_type c with
      | DATA_TYPE_FP16 =>
          match kv with
          | DATA_TYPE_FP16 => MacrosAccepted q
          | _ => MacrosRejected kv_fp16_message
          end
      | _ =>
          match kv with
          | DATA_TYPE_BF16 => MacrosAccepted q
          | _ => MacrosRejected kv_bf16_message
          end
      end
  end.

Definition macro_verdict (c : tllmXqaJitContext) : MacroVerdict :=
  match urem (num_q_heads c) (num_kv_heads c), udiv (num_q_heads c) (num_kv_heads c) with
  | Some 0, Some q =>
      match data_type c with
      | DATA_TYPE_FP16 | DATA_TYPE_BF16 => kv_cache_verdict c q
      | DATA_TYPE_E4M3 =>
          match kernel_type c with
          | TLLM_XQA_JIT_MLA => kv_cache_verdict c q
          | _ => MacrosAborted AssertionFailure
          end
      | _ => MacrosRejected data_type_message
      end
  | Some _, Some _ => MacrosRejected (head_count_message c)
  | _, _ => MacrosAborted DivisionByZero
  end.

Definition data_type_entries (c : tllmXqaJitContext) : list (string * string) :=
  match data_type c with
  | DATA_TYPE_FP16 => [("DTYPE", "__half"); ("INPUT_FP16", "1")]
  | DATA_TYPE_BF16 => [("DTYPE", "__nv_bfloat16"); ("INPUT_FP16", "0")]
  | _ => []
  end.

Definition cache_elem_enum (c : tllmXqaJitContext) : string :=
  match kv_cache_data_type c with
  | DATA_TYPE_INT8 => "1"
  | DATA_TYPE_E4M3 => "2"
  | _ => "0"
  end.

Definition macro_entries (c : tllmXqaJitContext) (q : N) : list (string * string) :=
  ([("__FORCE_INCLUDE_CUDA_BF16_HPP_FROM_BF16_H__", "1");
    ("__FORCE_INCLUDE_CUDA_FP16_HPP_FROM_FP16_H__", "1");
    ("ROPE_STYLE", to_string_int (rope_style c));
    ("USE_INPUT_KV", if use_input_kv c then "1" else "0");
    ("LOW_PREC_OUTPUT", if fp8_output c then "1" else "0");
    ("SLIDING_WINDOW", if multi_query_tokens c then "0" else "1");
    ("USE_CUSTOM_BARRIER", "1");
    ("M_TILESIZE", to_string_unsigned (m_tilesize c q));
    ("HEAD_GRP_SIZE", to_string_unsigned q);
    ("TOKENS_PER_PAGE",
      if paged_kv_cache c then to_string_unsigned (tokens_per_block c) else "0");
    ("CACHE_ELEM_ENUM", cache_elem_enum c);
    ("BEAM_WIDTH", to_string_unsigned (beam_width c));
    ("HEAD_ELEMS", to_string_unsigned (head_size c));
    ("NDEBUG", "1");
    ("GENERATE_CUBIN", "1")]
   ++ data_type_entries c
   ++ (if multi_query_tokens c then [("SPEC_DEC", "1")] else []))%list.

(** What [getMacroFlags] leaves behind, by verdict. *)
Definition macros_result (iterate : gmap string string -> list (string * string))
    (NDEBUG : bool) (c : tllmXqaJitContext) (result : list string) (w : World)
  : Outcome (tllmXqaJitStatus * list string) * World :=
  match macro_verdict c with
  | MacrosAccepted q =>
      let entries := iterate (list_to_map (macro_entries c q)) in
      (Returned (TLLM_XQA_JIT_SUCCESS, (result ++ (flag_of <$> entries))%list),
       if NDEBUG then w else logged (call_puts (macros_dump entries)) w)
  | MacrosRejected message =>
      (Returned (TLLM_XQA_JIT_INVALID_INPUT, result), with_error message w)
  | MacrosAborted why => (Aborted why, w)
  end.

(** The data types [getMacroFlags] lets through, as its own error message
    words them, and the cache types it lets through for a data type. *)
Definition valid_data_type (c : tllmXqaJitContext) : Prop :=
  data_type c = DATA_TYPE_FP16 \/ data_type c = DATA_TYPE_BF16 \/
  (data_type c = DATA_TYPE_E4M3 /\ kernel_type c = TLLM_XQA_JIT_MLA).

Definition valid_kv_cache_type (c : tllmXqaJitContext) : Prop :=
  kv_cache_data_type c = DATA_TYPE_INT8 \/
  kv_cache_data_type c = DATA_TYPE_E4M3 \/
  (data_type c = DATA_TYPE_FP16 /\ kv_cache_data_type c = DATA_TYPE_FP16) \/
  (data_type c <> DATA_TYPE_FP16 /\ kv_cache_data_type c = DATA_TYPE_BF16).

(** *** The compilation driver *)

(** What [getBuildOptions] and [getBuildOptionsPTX] leave behind, by verdict of
    the macro translation; [arch] is the architecture flag. *)
Definition build_options_result (arch : string)
    (iterate : gmap string string -> list (string * string))
    (NDEBUG : bool) (c : tllmXqaJitContext) (result : list string) (w : World)
  : Outcome (tllmXqaJitStatus * list string) * World :=
  let result := result ++ ["-dw"; "--use_fast_math"; "-default-device"; arch] in
  match macro_verdict c with
  | MacrosAccepted q =>
      let entries := iterate (list_to_map (macro_entries c q)) in
      (Returned (TLLM_XQA_JIT_SUCCESS, result ++ (flag_of <$> entries)),
       if NDEBUG then w else logged (call_puts (macros_dump entries)) w)
  | MacrosRejected message =>
      (Returned (TLLM_XQA_JIT_INVALID_INPUT, result), with_error message w)
  | MacrosAborted why => (Aborted why, w)
  end.

(** The condition under which [compileProgram] compiles in two stages. *)
Definition needs_two_stage (c : tllmXqaJitContext) : Prop :=
  (sm c = 120%Z \/ sm c = 121%Z) /\ kernel_type c = TLLM_XQA_JIT_HMMA.

(** Calls that only print, and calls into nvPTXCompiler. *)
Definition is_stdio_call (c : LibCall) : bool :=
  match c with call_puts _ | call_printf _ _ => true | _ => false end.

Definition is_nvPTXCompiler_call (c : LibCall) : bool :=
  match c with
  | call_nvPTXCompilerCreate _ _ | call_nvPTXCompilerCompile _ _
  | call_nvPTXCompilerGetCompiledProgramSize _
  | call_nvPTXCompilerGetCompiledProgram _ | call_nvPTXCompilerDestroy _ => true
  | _ => false
  end.

(** The calls made to the two compilers. *)
Definition compiler_calls (calls : list LibCall) : list LibCall :=
  List.filter (fun c => negb (is_stdio_call c)) calls.

(** The calls of a completed two-stage and of a completed single-stage
    compilation. *)
Definition two_stage_calls (prog : nvrtcProgram) (options : list string)
    (calls : list LibCall) : Prop :=
  exists ptx_size ptx compiler,
    calls =
      [call_nvrtcCompileProgram prog options;
       call_nvrtcGetPTXSize prog;
       call_nvrtcGetPTX prog;
       call_nvPTXCompilerCreate ptx_size ptx;
       call_nvPTXCompilerCompile compiler ["--gpu-name=sm_120f"];
       call_nvPTXCompilerGetCompiledProgramSize compiler;
       call_nvPTXCompilerGetCompiledProgram compiler;
       call_nvPTXCompilerDestroy compiler].

Definition single_stage_calls (prog : nvrtcProgram) (options : list string)
    (calls : list LibCall) : Prop :=
  calls = [call_nvrtcCompileProgram prog options].

(** The status and the object a call hands back. *)
Definition status_of {A} (out : Outcome (tllmXqaJitStatus * A)) : option tllmXqaJitStatus :=
  match out with Returned (status, _) => Some status | Aborted _ => None end.

Definition unit_of {A} (default : A) (out : Outcome (tllmXqaJitStatus * A)) : A :=
  match out with Returned (_, a) => a | Aborted _ => default end.

(** A call that fails leaves a message that does not depend on the message
    left before it. *)
Definition overwrites_on_failure {A} (op : Fn (tllmXqaJitStatus * A)) : Prop :=
  forall w status a w',
    op w = (Returned (status, a), w') ->
    status <> TLLM_XQA_JIT_SUCCESS ->
    gErrorString w' <> "" /\
    string_forall not_NUL (gErrorString w') = true /\
    forall e, op (with_error e w) = (Returned (status, a), w').

(** The options of an accepted configuration: the three common flags, the
    architecture flag and the macro flags. *)
Definition build_options (arch : string)
    (iterate : gmap string string -> list (string * string)) (c : tllmXqaJitContext)
  : list string :=
  ["-dw"; "--use_fast_math"; "-default-device"; arch]
  ++ (flag_of <$>
        iterate (list_to_map (macro_entries c (num_q_heads c / num_kv_heads c)))).

(** ** Sample configurations *)

(** The example of the specification: 32 query heads over 4 key-value heads,
    half precision, architecture 90, standard kernel. *)
Definition ctx_sm90 : tllmXqaJitContext := {|
  sm := 90; head_size := 128; num_q_heads := 32; num_kv_heads := 4;
  beam_width := 1; tokens_per_block := 0; multi_query_tokens := false;
  q_seq_len := 1; paged_kv_cache := false;
  data_type := DATA_TYPE_FP16; kv_cache_data_type := DATA_TYPE_FP16;
  kernel_type := TLLM_XQA_JIT_HMMA;
  fp8_output := false; use_input_kv := false; rope_style := 0 |}.

Definition with_sm (SM : Z) (c : tllmXqaJitContext) : tllmXqaJitContext := {|
  sm := SM; head_size := head_size c; num_q_heads := num_q_heads c;
  num_kv_heads := num_kv_heads c; beam_width := beam_width c;
  tokens_per_block := tokens_per_block c; multi_query_tokens := multi_query_tokens c;
  q_seq_len := q_seq_len c; paged_kv_cache := paged_kv_cache c;
  data_type := data_type c; kv_cache_data_type := kv_cache_data_type c;
  kernel_type := kernel_type c; fp8_output := fp8_output c;
  use_input_kv := use_input_kv c; rope_style := rope_style c |}.

(** 30 query heads do not divide into 4 key-value heads. *)
Definition ctx_bad_heads : tllmXqaJitContext := {|
  sm := 90; head_size := 128; num_q_heads := 30; num_kv_heads := 4;
  beam_width := 1; tokens_per_block := 0; multi_query_tokens := false;
  q_seq_len := 1; paged_kv_cache := false;
  data_type := DATA_TYPE_FP16; kv_cache_data_type := DATA_TYPE_FP16;
  kernel_type := TLLM_XQA_JIT_HMMA;
  fp8_output := false; use_input_kv := false; rope_style := 0 |}.

(** Multi-query-token mode with [q_seq_len = 2^16] and [2^16] query heads on
    one key-value head: the product is [2^32]. *)
Definition ctx_long_sequence : tllmXqaJitContext := {|
  sm := 90; head_size := 128; num_q_heads := 65536; num_kv_heads := 1;
  beam_width := 1; tokens_per_block := 0; multi_query_tokens := true;
  q_seq_len := 65536; paged_kv_cache := false;
  data_type := DATA_TYPE_FP16; kv_cache_data_type := DATA_TYPE_FP16;
  kernel_type := TLLM_XQA_JIT_HMMA;
  fp8_output := false; use_input_kv := false; rope_style := 0 |}.

(** The MLA kernel on 8-bit float data, with a cache of [kv] elements. *)
Definition ctx_mla (kv : Data_type) : tllmXqaJitContext := {|
  sm := 120; head_size := 576; num_q_heads := 128; num_kv_heads := 1;
  beam_width := 1; tokens_per_block := 64; multi_query_tokens := true;
  q_seq_len := 1; paged_kv_cache := true;
  data_type := DATA_TYPE_E4M3; kv_cache_data_type := kv;
  kernel_type := TLLM_XQA_JIT_MLA;
  fp8_output := false; use_input_kv := false; rope_style := 0 |}.

(** A unit as [createProgram] makes it, on handle 7. *)
Definition unit_of_context (c : tllmXqaJitContext) : _tllmXqaJitProgram :=
  {| program := 7; context := c; cubin_data := []; use_stored_cubin := false |}.

(** Libraries whose every call succeeds. *)
Definition ext_ok : Externals := {|
  nvrtcCreateProgram := fun _ _ => (NVRTC_SUCCESS, 7);
  nvrtcCompileProgram := fun _ _ _ => NVRTC_SUCCESS;
  nvrtcGetProgramLogSize := fun _ _ => (NVRTC_SUCCESS, 0);
  nvrtcGetProgramLog := fun _ _ log => (NVRTC_SUCCESS, log);
  nvrtcGetPTXSize := fun _ _ => (NVRTC_SUCCESS, 2);
  nvrtcGetPTX := fun _ _ ptx => (NVRTC_SUCCESS, ptx);
  nvrtcGetCUBINSize := fun _ _ _ => (NVRTC_SUCCESS, 3);
  nvrtcGetCUBIN := fun _ _ cubin => (NVRTC_SUCCESS, cubin);
  nvrtcDestroyProgram := fun _ _ => NVRTC_SUCCESS;
  nvPTXCompilerCreate := fun _ _ _ => (NVPTXCOMPILE_SUCCESS, 9);
  nvPTXCompilerCompile := fun _ _ _ => NVPTXCOMPILE_SUCCESS;
  nvPTXCompilerGetCompiledProgramSize := fun _ _ => (NVPTXCOMPILE_SUCCESS, 4);
  nvPTXCompilerGetCompiledProgram := fun _ _ cubin => (NVPTXCOMPILE_SUCCESS, cubin);
  nvPTXCompilerDestroy := fun _ _ => NVPTXCOMPILE_SUCCESS |}.

(** Libraries in which NVRTC refuses to compile. *)
Definition ext_nvrtc_fails : Externals := {|
  nvrtcCreateProgram := fun _ _ => (NVRTC_SUCCESS, 7);
  nvrtcCompileProgram := fun _ _ _ => NVRTC_ERROR 6;
  nvrtcGetProgramLogSize := fun _ _ => (NVRTC_SUCCESS, 0);
  nvrtcGetProgramLog := fun _ _ log => (NVRTC_SUCCESS, log);
  nvrtcGetPTXSize := fun _ _ => (NVRTC_SUCCESS, 2);
  nvrtcGetPTX := fun _ _ ptx => (NVRTC_SUCCESS, ptx);
  nvrtcGetCUBINSize := fun _ _ size => (NVRTC_ERROR 4, size);
  nvrtcGetCUBIN := fun _ _ cubin => (NVRTC_ERROR 4, cubin);
  nvrtcDestroyProgram := fun _ _ => NVRTC_ERROR 4;
  nvPTXCompilerCreate := fun _ _ _ => (NVPTXCOMPILE_SUCCESS, 9);
  nvPTXCompilerCompile := fun _ _ _ => NVPTXCOMPILE_SUCCESS;
  nvPTXCompilerGetCompiledProgramSize := fun _ _ => (NVPTXCOMPILE_SUCCESS, 4);
  nvPTXCompilerGetCompiledProgram := fun _ _ cubin => (NVPTXCOMPILE_SUCCESS, cubin);
  nvPTXCompilerDestroy := fun _ _ => NVPTXCOMPILE_SUCCESS |}.

(** One iteration order: that of the entries of the [gmap]. *)
Definition table_order : gmap string string -> list (string * string) := map_to_list.

(** A compilation for architecture 121 against [ext_ok], evaluated. *)
Definition run_sm121 : Outcome (tllmXqaJitStatus * _tllmXqaJitProgram) * World :=
  Eval vm_compute in
    compileProgram table_order ext_ok true (unit_of_context (with_sm 121 ctx_sm90))
      initial_world.

(** 8-bit-int data, which no kernel takes. *)
Definition ctx_int8_data : tllmXqaJitContext := {|
  sm := 90; head_size := 128; num_q_heads := 32; num_kv_heads := 4;
  beam_width := 1; tokens_per_block := 0; multi_query_tokens := false;
  q_seq_len := 1; paged_kv_cache := false;
  data_type := DATA_TYPE_INT8; kv_cache_data_type := DATA_TYPE_INT8;
  kernel_type := TLLM_XQA_JIT_HMMA;
  fp8_output := false; use_input_kv := false; rope_style := 0 |}.

(** 8-bit-float data on the standard kernel. *)
Definition ctx_e4m3_hmma : tllmXqaJitContext := {|
  sm := 120; head_size := 128; num_q_heads := 32; num_kv_heads := 4;
  beam_width := 1; tokens_per_block := 0; multi_query_tokens := false;
  q_seq_len := 1; paged_kv_cache := false;
  data_type := DATA_TYPE_E4M3; kv_cache_data_type := DATA_TYPE_E4M3;
  kernel_type := TLLM_XQA_JIT_HMMA;
  fp8_output := false; use_input_kv := false; rope_style := 0 |}.

(** No key-value heads at all. *)
Definition ctx_no_kv_heads : tllmXqaJitContext := {|
  sm := 90; head_size := 128; num_q_heads := 32; num_kv_heads := 0;
  beam_width := 1; tokens_per_block := 0; multi_query_tokens := false;
  q_seq_len := 1; paged_kv_cache := false;
  data_type := DATA_TYPE_FP16; kv_cache_data_type := DATA_TYPE_FP16;
  kernel_type := TLLM_XQA_JIT_HMMA;
  fp8_output := false; use_input_kv := false; rope_style := 0 |}.

(** Speculative decoding with paged cache on the standard kernel. *)
Definition ctx_spec_dec : tllmXqaJitContext := {|
  sm := 90; head_size := 128; num_q_heads := 32; num_kv_heads := 4;
  beam_width := 1; tokens_per_block := 64; multi_query_tokens := true;
  q_seq_len := 4; paged_kv_cache := true;
  data_type := DATA_TYPE_BF16; kv_cache_data_type := DATA_TYPE_E4M3;
  kernel_type := TLLM_XQA_JIT_HMMA;
  fp8_output := true; use_input_kv := true; rope_style := 1 |}.

(** A unit that carries a cubin of three bytes. *)
Definition unit_stored : _tllmXqaJitProgram :=
  {| program := 7; context := with_sm 120 ctx_sm90;
     cubin_data := [x01; x02; x03]; use_stored_cubin := true |}.

(** The source text [createProgram] registers for a kernel type. *)
Definition source_of (kt : tllmXqaJitKernelType) : KernelSource :=
  match kt with
  | TLLM_XQA_JIT_MLA => mla_sm120_cu_content
  | TLLM_XQA_JIT_QGMMA => mha_sm90_cu_content
  | TLLM_XQA_JIT_HMMA => mha_cu_content
  end.

(** The library calls that belong to compiling: neither creation nor release
    of the NVRTC program, nor the reading of its cubin. *)
Definition is_compile_step (c : LibCall) : bool :=
  match c with
  | call_nvrtcCreateProgram _ | call_nvrtcDestroyProgram _
  | call_nvrtcGetCUBINSize _ | call_nvrtcGetCUBIN _ => false
  | _ => true
  end.

(** What a failing [compileProgram] looks like: either the configuration was
    refused before any compiler was called, or a library call failed and the
    message names the library of the last call. *)
Definition refused_before_compiling (prog prog' : _tllmXqaJitProgram)
    (new : list LibCall) (message : string) : Prop :=
  prog' = prog /\ compiler_calls new = [] /\
  macro_verdict (context prog) = MacrosRejected message.

Definition library_call_failed (prog prog' : _tllmXqaJitProgram)
    (new : list LibCall) (message : string) : Prop :=
  exists failed,
    last (compiler_calls new) = Some failed /\
    message = (if is_nvPTXCompiler_call failed
               then "nvPTXCompiler Internal Error" else "NVRTC Internal Error") /\
    program prog' = program prog /\ context prog' = context prog /\
    (use_stored_cubin prog = false ->
     (use_stored_cubin prog' = true <->
      exists compiler, failed = call_nvPTXCompilerDestroy compiler)).

(** Libraries in which the program cannot be created. *)
Definition ext_create_fails : Externals := {|
  nvrtcCreateProgram := fun _ _ => (NVRTC_ERROR 1, 0);
  nvrtcCompileProgram := fun _ _ _ => NVRTC_SUCCESS;
  nvrtcGetProgramLogSize := fun _ _ => (NVRTC_SUCCESS, 0);
  nvrtcGetProgramLog := fun _ _ log => (NVRTC_SUCCESS, log);
  nvrtcGetPTXSize := fun _ _ => (NVRTC_SUCCESS, 2);
  nvrtcGetPTX := fun _ _ ptx => (NVRTC_SUCCESS, ptx);
  nvrtcGetCUBINSize := fun _ _ _ => (NVRTC_SUCCESS, 3);
  nvrtcGetCUBIN := fun _ _ cubin => (NVRTC_SUCCESS, cubin);
  nvrtcDestroyProgram := fun _ _ => NVRTC_SUCCESS;
  nvPTXCompilerCreate := fun _ _ _ => (NVPTXCOMPILE_SUCCESS, 9);
  nvPTXCompilerCompile := fun _ _ _ => NVPTXCOMPILE_SUCCESS;
  nvPTXCompilerGetCompiledProgramSize := fun _ _ => (NVPTXCOMPILE_SUCCESS, 4);
  nvPTXCompilerGetCompiledProgram := fun _ _ cubin => (NVPTXCOMPILE_SUCCESS, cubin);
  nvPTXCompilerDestroy := fun _ _ => NVPTXCOMPILE_SUCCESS |}.


(** Failing compilations, evaluated: head counts that do not divide, an NVRTC
    that refuses to compile, and a PTX compiler that cannot be released. *)
Definition run_bad_heads : Outcome (tllmXqaJitStatus * _tllmXqaJitProgram) * World :=
  Eval vm_compute in
    compileProgram table_order ext_ok true (unit_of_context ctx_bad_heads) initial_world.

Definition run_nvrtc_fails : Outcome (tllmXqaJitStatus * _tllmXqaJitProgram) * World :=
  Eval vm_compute in
    compileProgram table_order ext_nvrtc_fails true (unit_of_context ctx_sm90)
      initial_world.


(** A successful compilation on top of a stale error message, evaluated. *)
Definition run_after_failure
  : Outcome (tllmXqaJitStatus * _tllmXqaJitProgram) * World :=
  Eval vm_compute in
    tllmXqaJitCreateAndCompileProgram table_order ext_ok true ctx_sm90
      (with_error "NVRTC Internal Error" initial_world).

(** Macro translation of [ctx_spec_dec] in a build without [NDEBUG],
    evaluated. *)
Definition run_macros_spec_dec : Outcome (tllmXqaJitStatus * list string) * World :=
  Eval vm_compute in getMacroFlags table_order false ctx_spec_dec [] initial_world.

(** The calls that read the compilation log of NVRTC. *)
Definition is_log_call (c : LibCall) : bool :=
  match c with
  | call_nvrtcGetProgramLogSize _ | call_nvrtcGetProgramLog _ => true
  | _ => false
  end.

(** Libraries none of whose calls fails, whatever was called before. *)
Definition libraries_succeed (ext : Externals) : Prop :=
  (forall past src, (nvrtcCreateProgram ext past src).1 = NVRTC_SUCCESS) /\
  (forall past prog options, nvrtcCompileProgram ext past prog options = NVRTC_SUCCESS) /\
  (forall past prog, (nvrtcGetPTXSize ext past prog).1 = NVRTC_SUCCESS) /\
  (forall past prog ptx, (nvrtcGetPTX ext past prog ptx).1 = NVRTC_SUCCESS) /\
  (forall past size ptx, (nvPTXCompilerCreate ext past size ptx).1 = NVPTXCOMPILE_SUCCESS) /\
  (forall past compiler options,
     nvPTXCompilerCompile ext past compiler options = NVPTXCOMPILE_SUCCESS) /\
  (forall past compiler,
     (nvPTXCompilerGetCompiledProgramSize ext past compiler).1 = NVPTXCOMPILE_SUCCESS) /\
  (forall past compiler cubin,
     (nvPTXCompilerGetCompiledProgram ext past compiler cubin).1 = NVPTXCOMPILE_SUCCESS) /\
  (forall past compiler, nvPTXCompilerDestroy ext past compiler = NVPTXCOMPILE_SUCCESS).

(** A compilation that NVRTC refuses, in a build without [NDEBUG],
    evaluated. *)
Definition run_nvrtc_fails_debug
  : Outcome (tllmXqaJitStatus * _tllmXqaJitProgram) * World :=
  Eval vm_compute in
    compileProgram table_order ext_nvrtc_fails false (unit_of_context ctx_sm90)
      initial_world.



(** Libraries whose every call succeeds and whose PTX compiler reports a
    cubin of three bytes and fills the buffer it is given with [xcb]. *)
Definition ext_writes_cubin : Externals := {|
  nvrtcCreateProgram := fun _ _ => (NVRTC_SUCCESS, 7);
  nvrtcCompileProgram := fun _ _ _ => NVRTC_SUCCESS;
  nvrtcGetProgramLogSize := fun _ _ => (NVRTC_SUCCESS, 0);
  nvrtcGetProgramLog := fun _ _ log => (NVRTC_SUCCESS, log);
  nvrtcGetPTXSize := fun _ _ => (NVRTC_SUCCESS, 2);
  nvrtcGetPTX := fun _ _ ptx => (NVRTC_SUCCESS, ptx);
  nvrtcGetCUBINSize := fun _ _ _ => (NVRTC_SUCCESS, 3);
  nvrtcGetCUBIN := fun _ _ cubin => (NVRTC_SUCCESS, cubin);
  nvrtcDestroyProgram := fun _ _ => NVRTC_SUCCESS;
  nvPTXCompilerCreate := fun _ _ _ => (NVPTXCOMPILE_SUCCESS, 9);
  nvPTXCompilerCompile := fun _ _ _ => NVPTXCOMPILE_SUCCESS;
  nvPTXCompilerGetCompiledProgramSize := fun _ _ => (NVPTXCOMPILE_SUCCESS, 3);
  nvPTXCompilerGetCompiledProgram :=
    fun _ _ cubin => (NVPTXCOMPILE_SUCCESS, (fun _ => xcb) <$> cubin);
  nvPTXCompilerDestroy := fun _ _ => NVPTXCOMPILE_SUCCESS |}.

(** What a completed two-stage compilation stores in the unit [prog'], given
    the calls [before] it makes ahead of the size query: the bytes that
    [nvPTXCompilerGetCompiledProgram] wrote into the unit's buffer [buffer],
    resized to the size that [nvPTXCompilerGetCompiledProgramSize]
    reported. *)
Definition stores_compiled_program (ext : Externals) (past : list LibCall)
    (buffer : list byte) (prog' : _tllmXqaJitProgram) (calls : list LibCall) : Prop :=
  exists before compiler rest,
    calls =
      before ++ call_nvPTXCompilerGetCompiledProgramSize compiler
             :: call_nvPTXCompilerGetCompiledProgram compiler :: rest /\
    cubin_data prog' =
      (nvPTXCompilerGetCompiledProgram ext
         (past ++ before ++ [call_nvPTXCompilerGetCompiledProgramSize compiler]) compiler
         (resize buffer
            (nvPTXCompilerGetCompiledProgramSize ext (past ++ before) compiler).2)).2.

(** ** Numerals *)

Lemma pretty_N_char_digit d : is_digit (pretty_N_char d) = true.
Proof. unfold pretty_N_char. repeat case_match; reflexivity. Qed.

Lemma pretty_N_go_forall (p : ascii -> bool) :
  (forall d, p (pretty_N_char d) = true) ->
  forall x s, string_forall p s = true -> string_forall p (pretty_N_go x s) = true.
Proof.
  intros Hp x. induction (N.lt_wf_0 x) as [x _ IH]. intros s Hs.
  destruct (decide (x = 0)) as [->|Hx].
  - by rewrite pretty_N_go_0.
  - rewrite pretty_N_go_step by lia. apply IH.
    + apply N.div_lt; lia.
    + simpl. by rewrite Hp, Hs.
Qed.

Lemma string_forall_app p s t :
  string_forall p (s +:+ t) = string_forall p s && string_forall p t.
Proof. induction s as [|c s IH]; simpl; [done|]. by rewrite IH, andb_assoc. Qed.

Lemma to_string_unsigned_forall (p : ascii -> bool) n :
  (forall d, p (pretty_N_char d) = true) ->
  string_forall p (to_string_unsigned n) = true.
Proof.
  intros Hp. unfold to_string_unsigned, pretty, pretty_N.
  case_decide.
  - simpl. specialize (Hp 0). simpl in Hp. by rewrite Hp.
  - by apply pretty_N_go_forall.
Qed.

Lemma last_char_pretty_N_go x s :
  s <> "" -> last_char (pretty_N_go x s) = last_char s.
Proof.
  revert s. induction (N.lt_wf_0 x) as [x _ IH]. intros s Hs.
  destruct (decide (x = 0)) as [->|Hx].
  - by rewrite pretty_N_go_0.
  - rewrite pretty_N_go_step by lia. rewrite IH.
    + simpl. destruct s; congruence.
    + apply N.div_lt; lia.
    + discriminate.
Qed.

Lemma last_char_app_nonempty s t : t <> "" -> last_char (s +:+ t) = last_char t.
Proof.
  intros Ht. induction s as [|c s IH]; [done|].
  simpl. rewrite IH. destruct (s +:+ t) eqn:E; [|done].
  destruct s; simpl in E; [|discriminate]. by subst.
Qed.

Lemma to_string_unsigned_ends_in_digit n : ends_in_digit (to_string_unsigned n) = true.
Proof.
  unfold ends_in_digit, to_string_unsigned, pretty, pretty_N.
  case_decide; [done|].
  rewrite pretty_N_go_step by lia.
  rewrite last_char_pretty_N_go by discriminate. simpl. apply pretty_N_char_digit.
Qed.

Lemma to_string_int_ends_in_digit z : ends_in_digit (to_string_int z) = true.
Proof.
  unfold to_string_int, pretty, pretty_Z. destruct z as [|p|p]; [done| |].
  - apply (to_string_unsigned_ends_in_digit (Npos p)).
  - unfold ends_in_digit. rewrite last_char_app_nonempty.
    + apply (to_string_unsigned_ends_in_digit (Npos p)).
    + pose proof (to_string_unsigned_ends_in_digit (Npos p)) as H.
      unfold ends_in_digit, to_string_unsigned in H. intros E.
      change (pretty p) with (pretty (N.pos p)) in E. rewrite E in H. done.
Qed.

(** ** The architecture flags *)

(** C6: for every architecture number [N] the final-architecture flag is
    [-arch=sm_90a], [-arch=sm_120a], [-arch=sm_121a] for 90, 120, 121, and
    [-arch=sm_<N>] for every other [N], where [<N>] is the decimal numeral of
    [N] and therefore ends in a digit, not in a suffix letter. *)
Theorem getSMFlag_arch :
  getSMFlag 90 = "-arch=sm_90a" /\
  getSMFlag 120 = "-arch=sm_120a" /\
  getSMFlag 121 = "-arch=sm_121a" /\
  forall N : Z,
    getSMFlag N =
      (if bool_decide (N = 90%Z \/ N = 120%Z \/ N = 121%Z)
       then "-arch=sm_" +:+ to_string_int N +:+ "a"
       else "-arch=sm_" +:+ to_string_int N) /\
    ends_in_digit (to_string_int N) = true.
Proof.
  split; [reflexivity|]. split; [reflexivity|]. split; [reflexivity|].
  intros N. split; [|apply to_string_int_ends_in_digit].
  unfold getSMFlag. case_bool_decide as HN.
  - destruct HN as [->|[->| ->]]; reflexivity.
  - assert ((N =? 90)%Z = false /\ (N =? 120)%Z = false /\ (N =? 121)%Z = false)
      as (-> & -> & ->) by (rewrite !Z.eqb_neq; tauto).
    reflexivity.
Qed.

(** C7: for every architecture number [N] the intermediate (PTX) architecture
    flag is [-arch=compute_89] for 120 and 121, [-arch=compute_90a] for 90, and
    [-arch=compute_<N>] for every other [N]. *)
Theorem getPTXSMFlag_arch :
  getPTXSMFlag 120 = "-arch=compute_89" /\
  getPTXSMFlag 121 = "-arch=compute_89" /\
  getPTXSMFlag 90 = "-arch=compute_90a" /\
  forall N : Z,
    getPTXSMFlag N =
      (if bool_decide (N = 120%Z \/ N = 121%Z) then "-arch=compute_89"
       else if bool_decide (N = 90%Z) then "-arch=compute_" +:+ to_string_int N +:+ "a"
       else "-arch=compute_" +:+ to_string_int N) /\
    ends_in_digit (to_string_int N) = true.
Proof.
  split; [reflexivity|]. split; [reflexivity|]. split; [reflexivity|].
  intros N. split; [|apply to_string_int_ends_in_digit].
  unfold getPTXSMFlag. case_bool_decide as HN.
  - destruct HN as [->| ->]; reflexivity.
  - assert ((N =? 120)%Z = false /\ (N =? 121)%Z = false)
      as (-> & ->) by (rewrite !Z.eqb_neq; tauto).
    simpl. case_bool_decide as H90.
    + subst N. reflexivity.
    + apply Z.eqb_neq in H90. rewrite H90. reflexivity.
Qed.

Lemma string_app_assoc (s t u : string) : (s +:+ t) +:+ u = s +:+ t +:+ u.
Proof.
  induction s as [|c s IH]; [done|].
  change (String c ((s +:+ t) +:+ u) = String c (s +:+ t +:+ u)). by f_equal.
Qed.

(** ** Flags and macro names *)

Lemma foldl_push_back {A B} (f : A -> B) (l : list A) (r : list B) :
  foldl (fun r x => push_back r (f x)) r l = (r ++ (f <$> l))%list.
Proof.
  revert r. induction l as [|x l IH]; intros r; simpl.
  - by rewrite app_nil_r.
  - rewrite IH. unfold push_back. by rewrite <- app_assoc.
Qed.

Lemma foldl_push_back_flags (l : list (string * string)) (r : list string) :
  foldl (fun result macro => push_back result (getMacroFlag macro.1 macro.2)) r l
  = (r ++ (flag_of <$> l))%list.
Proof. apply (foldl_push_back flag_of). Qed.

Lemma foldl_push_back_id {A} (l r : list A) :
  foldl (fun r x => push_back r x) r l = (r ++ l)%list.
Proof. rewrite (foldl_push_back id). by rewrite list_fmap_id. Qed.

(** Two names without [=] that give the same flag prefix are the same name. *)
Lemma macro_name_inj name name' value value' :
  string_forall not_equals_sign name = true ->
  string_forall not_equals_sign name' = true ->
  name +:+ "=" +:+ value = name' +:+ "=" +:+ value' ->
  name = name'.
Proof.
  revert name'. induction name as [|a name IH]; intros [|a' name'] Hn Hn' E;
    simpl in *.
  - done.
  - injection E as <- _. done.
  - injection E as -> _. done.
  - injection E as -> E. apply andb_prop in Hn as [_ Hn], Hn' as [_ Hn'].
    f_equal. by apply IH.
Qed.

Lemma is_macro_flag_name name name' value' :
  string_forall not_equals_sign name = true ->
  string_forall not_equals_sign name' = true ->
  is_macro_flag name (getMacroFlag name' value') -> name = name'.
Proof.
  intros Hn Hn' [value E]. unfold getMacroFlag in E.
  injection E as E. symmetry. eapply macro_name_inj; eauto.
Qed.

Section Flags.

Variable iterate : gmap string string -> list (string * string).
Hypothesis iterate_perm : forall m, iterate m ≡ₚ map_to_list m.

Variable entries : list (string * string).
Hypothesis entries_NoDup : NoDup entries.*1.
Hypothesis entries_names :
  Forall (fun k => string_forall not_equals_sign k = true) entries.*1.

Lemma iterate_entries : iterate (list_to_map entries) ≡ₚ entries.
Proof. rewrite iterate_perm. by apply map_to_list_to_map. Qed.

Lemma iterate_only_flag name value :
  (name, value) ∈ entries ->
  only_flag name value (flag_of <$> iterate (list_to_map entries)).
Proof.
  intros Hin.
  assert ((name, value) ∈ iterate (list_to_map entries)) as Hit
    by (by rewrite iterate_entries).
  apply list_elem_of_split in Hit as (l1 & l2 & Hsplit).
  exists (flag_of <$> l1), (flag_of <$> l2). split.
  { rewrite Hsplit, fmap_app. reflexivity. }
  assert (NoDup (l1 ++ (name, value) :: l2).*1) as Hnd
    by (rewrite <- Hsplit, iterate_entries; done).
  assert (Forall (fun k => string_forall not_equals_sign k = true)
            (l1 ++ (name, value) :: l2).*1) as Hnames
    by (rewrite <- Hsplit, iterate_entries; done).
  rewrite fmap_app, fmap_cons in Hnd, Hnames. simpl in Hnd, Hnames.
  apply NoDup_app in Hnd as (_ & Hl1 & Hnd). apply NoDup_cons in Hnd as [Hl2 _].
  apply Forall_app in Hnames as [Hn1 Hn2]. apply Forall_cons in Hn2 as [Hname Hn2].
  intros f Hf Hflag. rewrite <- fmap_app in Hf.
  apply list_elem_of_fmap in Hf as ([k v] & -> & Hkv).
  assert (name = k) as <-.
  { apply (is_macro_flag_name name k v); [done| |done].
    apply elem_of_app in Hkv as [Hkv|Hkv].
    - eapply (proj1 (Forall_forall _ _) Hn1). apply list_elem_of_fmap.
      by exists (k, v).
    - eapply (proj1 (Forall_forall _ _) Hn2). apply list_elem_of_fmap.
      by exists (k, v). }
  apply elem_of_app in Hkv as [Hkv|Hkv].
  - apply (Hl1 name); [|left]. apply list_elem_of_fmap. by exists (name, v).
  - apply Hl2. apply list_elem_of_fmap. by exists (name, v).
Qed.

Lemma iterate_no_flag name :
  string_forall not_equals_sign name = true ->
  name ∉ entries.*1 ->
  no_flag name (flag_of <$> iterate (list_to_map entries)).
Proof.
  intros Hname Hnot f Hf Hflag.
  apply list_elem_of_fmap in Hf as ([k v] & -> & Hkv).
  rewrite iterate_entries in Hkv.
  assert (k ∈ entries.*1) as Hk by (apply list_elem_of_fmap; by exists (k, v)).
  assert (name = k) as <-; [|done].
  apply (is_macro_flag_name name k v); [done| |done].
  by apply (proj1 (Forall_forall _ _) entries_names).
Qed.

End Flags.

(** ** [getMacroFlags] against its table *)

Lemma pair_inv {A B} (a a' : A) (b b' : B) : (a, b) = (a', b') -> a = a' /\ b = b'.
Proof. intros [= -> ->]. done. Qed.

(** Evaluation of [getMacroFlags] on a configuration whose data types, kernel
    type and flags are constructors. *)
Ltac run_flags :=
  lazy beta iota zeta delta
    [getMacroFlags body seq unsigned_rem unsigned_div urem udiv pure return_ abort
     setErrorString TLLM_CHECK extern
     macros_result macro_verdict kv_cache_verdict macro_entries data_type_entries
     cache_elem_enum with_error logged
     bool_decide decide decide_rel not_dec negb
     Data_type_eq_dec Data_type_rec Data_type_rect
     tllmXqaJitKernelType_eq_dec tllmXqaJitKernelType_rec tllmXqaJitKernelType_rect
     sm head_size num_q_heads num_kv_heads beam_width tokens_per_block
     multi_query_tokens q_seq_len paged_kv_cache data_type kv_cache_data_type
     kernel_type fp8_output use_input_kv rope_style
     gErrorString libcalls app].

(** [getMacroFlags] computes what its table says. *)
Lemma getMacroFlags_run iterate NDEBUG c result w :
  getMacroFlags iterate NDEBUG c result w = macros_result iterate NDEBUG c result w.
Proof.
  destruct c as [sm hs nq nkv bw tpb mq qsl paged dt kv kt fp8 uikv rope].
  destruct (nkv =? 0) eqn:Hkv.
  { run_flags. rewrite Hkv. reflexivity. }
  destruct (nq mod nkv) as [|r] eqn:Hr.
  2:{ run_flags. rewrite Hkv, Hr. reflexivity. }
  destruct dt, kv, kt, mq, NDEBUG; run_flags; rewrite Hkv, Hr;
    lazy beta iota zeta delta [N.eqb]; rewrite ?foldl_push_back_flags; reflexivity.
Qed.

Lemma macro_entries_NoDup c q : NoDup (macro_entries c q).*1.
Proof.
  unfold macro_entries, data_type_entries.
  destruct (data_type c), (multi_query_tokens c); simpl;
    apply (bool_decide_unpack _); vm_compute; reflexivity.
Qed.

Lemma macro_entries_names c q :
  Forall (fun k => string_forall not_equals_sign k = true) (macro_entries c q).*1.
Proof.
  unfold macro_entries, data_type_entries.
  destruct (data_type c), (multi_query_tokens c); simpl;
    repeat (apply Forall_cons; split; [reflexivity|]); apply Forall_nil_2.
Qed.

Lemma macro_verdict_accepted c q :
  macro_verdict c = MacrosAccepted q <->
  urem (num_q_heads c) (num_kv_heads c) = Some 0 /\
  q = num_q_heads c / num_kv_heads c /\
  valid_data_type c /\ valid_kv_cache_type c.
Proof.
  unfold macro_verdict, kv_cache_verdict, valid_data_type, valid_kv_cache_type, urem, udiv.
  destruct (num_kv_heads c =? 0).
  { split; [discriminate|]. intros [? _]. discriminate. }
  destruct (num_q_heads c mod num_kv_heads c).
  2:{ split; [discriminate|]. intros [? _]. discriminate. }
  destruct (data_type c), (kv_cache_data_type c), (kernel_type c);
    (split;
      [ intros [= <-]; repeat split; auto 10 using eq_refl; try (right; right; right; split; congruence)
      | intros (_ & -> & Hd & Hk); try reflexivity; exfalso;
        intuition congruence ]).
Qed.

(** The flag list of a successful translation. *)
Lemma getMacroFlags_success iterate NDEBUG c result w flags w' :
  getMacroFlags iterate NDEBUG c result w = (Returned (TLLM_XQA_JIT_SUCCESS, flags), w') ->
  let q := num_q_heads c / num_kv_heads c in
  macro_verdict c = MacrosAccepted q /\
  flags = result ++ (flag_of <$> iterate (list_to_map (macro_entries c q))) /\
  gErrorString w' = gErrorString w.
Proof.
  rewrite getMacroFlags_run. unfold macros_result.
  destruct (macro_verdict c) as [q'| |] eqn:Hv; [|discriminate..].
  intros Hrun. apply pair_inv in Hrun as [Hout <-].
  apply (f_equal (unit_of [])) in Hout. cbn [unit_of] in Hout. subst flags.
  pose proof (proj1 (macro_verdict_accepted c q') Hv) as (_ & -> & _).
  repeat split. by destruct NDEBUG.
Qed.

(** A translation that passes the three checks succeeds. *)
Lemma getMacroFlags_accepts iterate NDEBUG c result w :
  urem (num_q_heads c) (num_kv_heads c) = Some 0 ->
  valid_data_type c -> valid_kv_cache_type c ->
  exists w',
    getMacroFlags iterate NDEBUG c result w =
      (Returned
         (TLLM_XQA_JIT_SUCCESS,
          result ++ (flag_of <$>
            iterate (list_to_map (macro_entries c (num_q_heads c / num_kv_heads c))))),
       w') /\
    gErrorString w' = gErrorString w.
Proof.
  intros Hr Hd Hk.
  assert (macro_verdict c = MacrosAccepted (num_q_heads c / num_kv_heads c)) as Hv
    by (by apply macro_verdict_accepted).
  rewrite getMacroFlags_run. unfold macros_result. rewrite Hv.
  eexists. split; [reflexivity|]. by destruct NDEBUG.
Qed.

Section Translation.

Variable iterate : gmap string string -> list (string * string).
Hypothesis iterate_perm : forall m, iterate m ≡ₚ map_to_list m.
Variable NDEBUG : bool.

Lemma accepted_only_flag c q name value :
  (name, value) ∈ macro_entries c q ->
  only_flag name value (flag_of <$> iterate (list_to_map (macro_entries c q))).
Proof.
  intros Hin.
  apply iterate_only_flag;
    [exact iterate_perm|apply macro_entries_NoDup|apply macro_entries_names|done].
Qed.

Lemma accepted_no_flag c q name :
  string_forall not_equals_sign name = true ->
  name ∉ (macro_entries c q).*1 ->
  no_flag name (flag_of <$> iterate (list_to_map (macro_entries c q))).
Proof.
  intros Hname Hnot.
  apply iterate_no_flag;
    [exact iterate_perm|apply macro_entries_NoDup|apply macro_entries_names|done|done].
Qed.


(** C3: when [num_q_heads % num_kv_heads] is not zero, macro translation
    returns [TLLM_XQA_JIT_INVALID_INPUT], leaves the output list as it was, and
    the last-error string is then the non-empty message that names both head
    counts. *)
Theorem getMacroFlags_head_counts_rejected c result w r :
  urem (num_q_heads c) (num_kv_heads c) = Some r -> r <> 0 ->
  exists w',
    getMacroFlags iterate NDEBUG c result w =
      (Returned (TLLM_XQA_JIT_INVALID_INPUT, result), w') /\
    gErrorString w' =
      "num_q_heads (" +:+ to_string_unsigned (num_q_heads c)
      +:+ ") must be multiples of num_kv_heads ("
      +:+ to_string_unsigned (num_kv_heads c) +:+ ")." /\
    gErrorString w' <> "" /\
    contains (gErrorString w') (to_string_unsigned (num_q_heads c)) /\
    contains (gErrorString w') (to_string_unsigned (num_kv_heads c)).
Proof.
  intros Hr Hne. rewrite getMacroFlags_run. unfold macros_result, macro_verdict.
  rewrite Hr. unfold urem, udiv in *.
  destruct (num_kv_heads c =? 0); [discriminate|].
  destruct r as [|r]; [done|].
  eexists. split; [reflexivity|]. simpl. split; [reflexivity|].
  split; [discriminate|]. split.
  - exists "num_q_heads (",
      (") must be multiples of num_kv_heads ("
       +:+ to_string_unsigned (num_kv_heads c) +:+ ").").
    reflexivity.
  - exists ("num_q_heads (" +:+ to_string_unsigned (num_q_heads c)
            +:+ ") must be multiples of num_kv_heads ("), ").".
    unfold head_count_message.
    rewrite !string_app_assoc. reflexivity.
Qed.




(** C10: on the MLA kernel with 8-bit float data, a configuration that passes
    the head-count and cache-type checks is translated successfully and the
    flags appended hold neither a [DTYPE] nor an [INPUT_FP16] flag, whereas
    for half precision and for bfloat16 they hold exactly one of each. *)
Theorem getMacroFlags_E4M3_no_DTYPE c result w :
  urem (num_q_heads c) (num_kv_heads c) = Some 0 ->
  valid_kv_cache_type c ->
  exists out w',
    getMacroFlags iterate NDEBUG c result w = (out, w') /\
    (data_type c = DATA_TYPE_E4M3 -> kernel_type c = TLLM_XQA_JIT_MLA ->
       exists appended,
         out = Returned (TLLM_XQA_JIT_SUCCESS, result ++ appended) /\
         no_flag "DTYPE" appended /\ no_flag "INPUT_FP16" appended) /\
    (data_type c = DATA_TYPE_FP16 ->
       exists appended,
         out = Returned (TLLM_XQA_JIT_SUCCESS, result ++ appended) /\
         only_flag "DTYPE" "__half" appended /\
         only_flag "INPUT_FP16" "1" appended) /\
    (data_type c = DATA_TYPE_BF16 ->
       exists appended,
         out = Returned (TLLM_XQA_JIT_SUCCESS, result ++ appended) /\
         only_flag "DTYPE" "__nv_bfloat16" appended /\
         only_flag "INPUT_FP16" "0" appended).
Proof.
  intros Hr Hk.
  destruct (getMacroFlags iterate NDEBUG c result w) as [out w'] eqn:Hrun.
  exists out, w'. split; [reflexivity|].
  assert (valid_data_type c ->
    out = Returned
      (TLLM_XQA_JIT_SUCCESS,
       result ++ (flag_of <$>
         iterate (list_to_map (macro_entries c (num_q_heads c / num_kv_heads c))))))
    as Hout.
  { intros Hd.
    destruct (getMacroFlags_accepts iterate NDEBUG c result w Hr Hd Hk) as (w'' & Hrun' & _).
    congruence. }
  split; [|split].
  - intros Hd Hkt. eexists. split; [apply Hout; right; right; done|].
    split; (apply accepted_no_flag; [reflexivity|]);
      unfold macro_entries, data_type_entries; rewrite Hd;
      destruct (multi_query_tokens c); simpl;
      apply (bool_decide_unpack _); vm_compute; reflexivity.
  - intros Hd. eexists. split; [apply Hout; left; done|].
    split; apply accepted_only_flag; unfold macro_entries, data_type_entries;
      rewrite Hd; apply elem_of_app; right; apply elem_of_app; left;
      repeat first [apply list_elem_of_here | apply list_elem_of_further].
  - intros Hd. eexists. split; [apply Hout; right; left; done|].
    split; apply accepted_only_flag; unfold macro_entries, data_type_entries;
      rewrite Hd; apply elem_of_app; right; apply elem_of_app; left;
      repeat first [apply list_elem_of_here | apply list_elem_of_further].
Qed.

End Translation.

(** ** The compilation driver *)

(** Both option assemblers follow the verdict of the macro translation. *)
Lemma getBuildOptions_run iterate NDEBUG prog result w :
  getBuildOptions iterate NDEBUG prog result w =
  build_options_result (getSMFlag (sm (context prog))) iterate NDEBUG (context prog) result w.
Proof.
  unfold getBuildOptions, build_options_result, body, seq, call, CHECK_TLLM_XQA_JIT_ERROR,
    pure, return_.
  rewrite getMacroFlags_run. unfold macros_result.
  destruct (macro_verdict (context prog)); lazy beta iota zeta;
    rewrite ?foldl_push_back_id; unfold push_back; rewrite <- ?app_assoc;
    reflexivity.
Qed.

Lemma getBuildOptionsPTX_run iterate NDEBUG prog result w :
  getBuildOptionsPTX iterate NDEBUG prog result w =
  build_options_result (getPTXSMFlag (sm (context prog))) iterate NDEBUG (context prog) result w.
Proof.
  unfold getBuildOptionsPTX, build_options_result, body, seq, call, CHECK_TLLM_XQA_JIT_ERROR,
    pure, return_.
  rewrite getMacroFlags_run. unfold macros_result.
  destruct (macro_verdict (context prog)); lazy beta iota zeta;
    rewrite ?foldl_push_back_id; unfold push_back; rewrite <- ?app_assoc;
    reflexivity.
Qed.

Lemma needs_two_stage_true c :
  needs_two_stage c ->
  ((sm c =? 120)%Z || (sm c =? 121)%Z)
  && bool_decide (kernel_type c = TLLM_XQA_JIT_HMMA) = true.
Proof.
  intros [Hsm Hkt]. rewrite bool_decide_eq_true_2 by done.
  destruct Hsm as [-> | ->]; reflexivity.
Qed.

Lemma needs_two_stage_false c :
  ~ needs_two_stage c ->
  ((sm c =? 120)%Z || (sm c =? 121)%Z)
  && bool_decide (kernel_type c = TLLM_XQA_JIT_HMMA) = false.
Proof.
  intros Hn. apply not_true_is_false. intros H. apply Hn.
  apply andb_prop in H as [Hsm Hkt]. apply bool_decide_eq_true_1 in Hkt.
  apply orb_prop in Hsm as [Hsm|Hsm]; apply Z.eqb_eq in Hsm; split; auto.
Qed.

(** Symbolic execution of [compileProgram]: unfold the statements, decide the
    two-stage condition, replace the option assembly by its table, and split
    on every answer of the libraries. *)
Ltac run_compile :=
  lazy beta iota zeta delta
    [compileProgram nvrtcCompile_checked body seq call pure return_ abort extern
     setErrorString CHECK_NVRTC_ERROR CHECK_TLLM_XQA_JIT_ERROR CHECK_NVPTX_ERROR
     set_cubin_data set_use_stored_cubin build_options_result with_error logged].

Ltac fields :=
  cbn [libcalls gErrorString program context cubin_data use_stored_cubin fst snd].

Ltac exec_step :=
  match goal with
  | |- context [match ?x with _ => _ end] =>
      lazymatch x with
      | context [match _ with _ => _ end] => fail
      | _ => destruct x eqn:?
      end
  end; fields.

Ltac start_compile c :=
  run_compile;
  destruct (decide (needs_two_stage c)) as [Hneeds|Hneeds];
  [ rewrite (needs_two_stage_true _ Hneeds)
  | rewrite (needs_two_stage_false _ Hneeds) ];
  lazy beta iota zeta; fields;
  rewrite ?getBuildOptionsPTX_run, ?getBuildOptions_run;
  run_compile; fields.

Ltac in_new H :=
  repeat (apply elem_of_app in H as [H|H]);
  repeat (apply elem_of_cons in H as [H|H]);
  try (apply elem_of_nil in H; destruct H).

(** The calls of any run: nvPTXCompiler only in the two-stage case, one fixed
    option list for its compile call, and the unit untouched otherwise. *)
Lemma compileProgram_calls iterate ext NDEBUG prog w out w' :
  compileProgram iterate ext NDEBUG prog w = (out, w') ->
  exists new,
    libcalls w' = libcalls w ++ new /\
    (forall c, c ∈ new -> is_nvPTXCompiler_call c = true ->
       needs_two_stage (context prog)) /\
    (forall compiler options,
       call_nvPTXCompilerCompile compiler options ∈ new ->
       options = ["--gpu-name=sm_120f"]) /\
    (~ needs_two_stage (context prog) ->
     forall status prog', out = Returned (status, prog') -> prog' = prog).
Proof.
  destruct NDEBUG.
  all: start_compile (context prog).
  all: destruct (macro_verdict (context prog)) eqn:Hv; fields.
  all: repeat exec_step.
  all: intros Hrun; apply pair_inv in Hrun as [<- <-]; fields.
  all: eexists; (split; [rewrite <- ?app_assoc; try reflexivity; symmetry; apply app_nil_r|]).
  all: split; [intros c Hin Hc; try done; in_new Hin; subst; discriminate|].
  all: split; [intros h o Hin; in_new Hin; congruence|].
  all: try done.
  all: intros _ status prog' Hout; apply (f_equal (unit_of prog)) in Hout; done.
Qed.

Lemma macro_verdict_quotient c q :
  macro_verdict c = MacrosAccepted q -> q = num_q_heads c / num_kv_heads c.
Proof. intros H. by apply macro_verdict_accepted in H as (_ & -> & _). Qed.

(** The calls of a successful run. *)
Lemma compileProgram_success iterate ext NDEBUG prog w prog' w' :
  compileProgram iterate ext NDEBUG prog w =
    (Returned (TLLM_XQA_JIT_SUCCESS, prog'), w') ->
  exists new,
    libcalls w' = libcalls w ++ new /\
    gErrorString w' = gErrorString w /\
    (needs_two_stage (context prog) ->
       two_stage_calls (program prog)
         (build_options (getPTXSMFlag (sm (context prog))) iterate (context prog))
         (compiler_calls new) /\
       use_stored_cubin prog' = true /\
       program prog' = program prog /\ context prog' = context prog) /\
    (~ needs_two_stage (context prog) ->
       single_stage_calls (program prog)
         (build_options (getSMFlag (sm (context prog))) iterate (context prog))
         (compiler_calls new) /\
       prog' = prog).
Proof.
  intros Hrun.
  pose proof (f_equal (fun r => status_of r.1) Hrun) as Hstatus.
  pose proof (f_equal (fun r => unit_of prog r.1) Hrun) as Hprog.
  apply (f_equal snd) in Hrun.
  revert Hstatus Hprog Hrun. unfold build_options.
  destruct NDEBUG.
  all: start_compile (context prog).
  all: destruct (macro_verdict (context prog)) eqn:Hv; fields.
  all: try apply macro_verdict_quotient in Hv as ->.
  all: repeat exec_step.
  all: cbn [status_of unit_of]; intros Hstatus Hprog Hrun; try discriminate Hstatus.
  all: subst prog' w'; fields.
  all: eexists; (split; [rewrite <- ?app_assoc; reflexivity|]).
  all: split; [reflexivity|].
  all: split; intros Hn; try (exfalso; tauto).
  - split; [|done]. eexists _, _, _. reflexivity.
  - split; [|done]. reflexivity.
  - split; [|done]. eexists _, _, _. reflexivity.
  - split; [|done]. reflexivity.
Qed.

Lemma macro_verdict_message c message :
  macro_verdict c = MacrosRejected message -> message <> "".
Proof.
  unfold macro_verdict, kv_cache_verdict.
  destruct (urem (num_q_heads c) (num_kv_heads c)) as [[|r]|],
    (udiv (num_q_heads c) (num_kv_heads c)), (data_type c), (kv_cache_data_type c),
    (kernel_type c); intros [= <-]; discriminate.
Qed.

(** The same run on a world with another error string: the libraries see the
    same calls and give the same answers. *)
Ltac replay :=
  repeat match goal with
  | H : ?x = _ |- context [match ?x with _ => _ end] => rewrite H; fields
  end.

Ltac restart_compile :=
  run_compile;
  try match goal with
  | H : needs_two_stage _ |- _ => rewrite (needs_two_stage_true _ H)
  | H : ~ needs_two_stage _ |- _ => rewrite (needs_two_stage_false _ H)
  end;
  lazy beta iota zeta; fields;
  rewrite ?getBuildOptionsPTX_run, ?getBuildOptions_run;
  run_compile; fields.

(** ** The last-error string *)

Lemma pretty_N_char_not_NUL d : not_NUL (pretty_N_char d) = true.
Proof. unfold pretty_N_char. repeat case_match; reflexivity. Qed.

Lemma macro_verdict_message_not_NUL c message :
  macro_verdict c = MacrosRejected message -> string_forall not_NUL message = true.
Proof.
  unfold macro_verdict, kv_cache_verdict.
  destruct (urem (num_q_heads c) (num_kv_heads c)) as [[|r]|],
    (udiv (num_q_heads c) (num_kv_heads c)), (data_type c), (kv_cache_data_type c),
    (kernel_type c); intros [= <-]; try reflexivity.
  all: unfold head_count_message;
    rewrite !string_forall_app, !to_string_unsigned_forall
      by apply pretty_N_char_not_NUL; reflexivity.
Qed.

(** A failing [compileProgram] leaves the same world whatever the error
    string was. *)
Lemma compileProgram_overwrites iterate ext NDEBUG prog :
  overwrites_on_failure (compileProgram iterate ext NDEBUG prog).
Proof.
  intros w status prog' w' Hrun Hfail.
  assert (exists out, out = Returned (status, prog') /\
            compileProgram iterate ext NDEBUG prog w = (out, w')) as (out & Hout & Hrun')
    by eauto.
  clear Hrun.
  pose proof (f_equal status_of Hout) as Hstatus. cbn [status_of] in Hstatus.
  rewrite <- Hout. clear Hout.
  revert Hstatus Hrun'.
  destruct NDEBUG.
  all: start_compile (context prog).
  all: destruct (macro_verdict (context prog)) eqn:Hv; fields.
  all: try (pose proof (macro_verdict_message _ _ Hv) as Hmsg;
            pose proof (macro_verdict_message_not_NUL _ _ Hv) as Hnul).
  all: repeat exec_step.
  all: intros Hstatus Hrun; apply pair_inv in Hrun as [<- <-].
  all: cbn [status_of] in Hstatus; try congruence; fields.
  all: (split; [done|]); (split; [done|]).
  all: intros e; restart_compile.
  all: rewrite ?Hv; fields; replay; reflexivity.
Qed.

(** Unfolding of the exported functions. *)
Ltac run_api :=
  lazy beta iota zeta delta
    [tllmXqaJitCreateAndCompileProgram createProgram tllmXqaJitGetCUBINSize
     tllmXqaJitGetCUBIN tllmXqaJitDestroyProgram
     body seq call pure return_ abort extern
     setErrorString CHECK_NVRTC_ERROR CHECK_TLLM_XQA_JIT_ERROR CHECK_NVPTX_ERROR
     with_error logged]; fields.

(** An accessor of the unit: run it, and run it again on the other string. *)
Ltac overwrites_by_run :=
  intros w status a w'; run_api; repeat exec_step;
  intros Hrun Hfail; apply pair_inv in Hrun as [Hout <-];
  pose proof (f_equal status_of Hout) as Hstatus; cbn [status_of] in Hstatus;
  try congruence;
  rewrite <- Hout; fields; (split; [done|]); (split; [done|]);
  intros e; run_api; replay; reflexivity.

Lemma tllmXqaJitGetCUBINSize_overwrites ext prog cubinSizeRet :
  overwrites_on_failure (tllmXqaJitGetCUBINSize ext prog cubinSizeRet).
Proof. overwrites_by_run. Qed.

Lemma tllmXqaJitGetCUBIN_overwrites ext prog cubin :
  overwrites_on_failure (tllmXqaJitGetCUBIN ext prog cubin).
Proof. overwrites_by_run. Qed.

Lemma tllmXqaJitDestroyProgram_overwrites ext prog :
  overwrites_on_failure (tllmXqaJitDestroyProgram ext prog).
Proof. overwrites_by_run. Qed.

Lemma tllmXqaJitCreateAndCompileProgram_overwrites iterate ext NDEBUG context :
  overwrites_on_failure (tllmXqaJitCreateAndCompileProgram iterate ext NDEBUG context).
Proof.
  intros w status a w'. run_api.
  destruct (nvrtcCreateProgram ext (libcalls w) _) as [[|code] handle] eqn:Hcreate; fields.
  - destruct (compileProgram _ _ _ _ _) as [[[status' prog']|why] w1] eqn:Hcompile;
      [|discriminate].
    intros Hrun Hfail.
    assert (status' = status /\ prog' = a /\ w1 = w') as (-> & -> & ->).
    { destruct status'; apply pair_inv in Hrun as [Hout <-];
        pose proof (f_equal status_of Hout) as Hstatus;
        pose proof (f_equal (unit_of prog') Hout) as Hunit;
        cbn [status_of unit_of] in *; repeat split; congruence. }
    destruct (compileProgram_overwrites _ _ _ _ _ _ _ _ Hcompile Hfail) as (? & ? & Hover).
    split; [done|]. split; [done|].
    intros e. run_api. replay.
    pose proof (Hover e) as He. unfold with_error in He.
    cbn [libcalls gErrorString] in He.
    rewrite He. destruct status; done.
  - intros Hrun Hfail; apply pair_inv in Hrun as [Hout <-].
    rewrite <- Hout; fields; (split; [done|]); (split; [done|]).
    intros e; run_api; replay; reflexivity.
Qed.

Lemma byte_of_ascii_NUL c : Byte.eqb (byte_of_ascii c) NUL = Ascii.eqb c zero.
Proof. destruct c as [[] [] [] [] [] [] [] []]; reflexivity. Qed.

Lemma until_NUL_c_str s :
  string_forall not_NUL s = true -> until_NUL (c_str s) = list_byte_of_string s.
Proof.
  unfold c_str. induction s as [|c s IH]; intros Hs.
  - reflexivity.
  - simpl in Hs. apply andb_prop in Hs as [Hc Hs].
    change (list_byte_of_string (String c s)) with (byte_of_ascii c :: list_byte_of_string s).
    cbn [app until_NUL]. rewrite byte_of_ascii_NUL.
    unfold not_NUL in Hc. apply negb_true_iff in Hc. rewrite Hc.
    f_equal. by apply IH.
Qed.

Lemma length_list_byte_of_string s :
  List.length (list_byte_of_string s) = String.length s.
Proof.
  induction s as [|c s IH]; [reflexivity|].
  change (list_byte_of_string (String c s)) with (byte_of_ascii c :: list_byte_of_string s).
  simpl. by rewrite IH.
Qed.

Lemma tllmXqaJitGetLastErrorString_copy w output :
  gErrorString w <> "" ->
  string_forall not_NUL (gErrorString w) = true ->
  (String.length (gErrorString w) + 1 <= List.length output)%nat ->
  tllmXqaJitGetLastErrorString output w =
    (Returned (c_str (gErrorString w)
               ++ drop (String.length (gErrorString w) + 1) output), w).
Proof.
  intros Hne Hnul Hfit. unfold tllmXqaJitGetLastErrorString, body.
  rewrite bool_decide_eq_false_2 by done.
  unfold strcpy, memcpy. rewrite until_NUL_c_str by done.
  fold (c_str (gErrorString w)).
  assert (List.length (c_str (gErrorString w)) = (String.length (gErrorString w) + 1)%nat)
    as Hlen by (unfold c_str; rewrite length_app, length_list_byte_of_string; reflexivity).
  rewrite Hlen. destruct (Nat.leb_spec (String.length (gErrorString w) + 1) (List.length output));
    [reflexivity|lia].
Qed.

(** ** Properties of the driver and of the error string *)

Lemma compiler_calls_elem c calls : c ∈ compiler_calls calls -> c ∈ calls.
Proof.
  unfold compiler_calls. rewrite !list_elem_of_In, filter_In. tauto.
Qed.

(** The unit [createProgram] makes has no stored cubin. *)
Lemma createProgram_unit ext c w status unit w1 :
  createProgram ext c w = (Returned (status, unit), w1) ->
  context unit = c /\ cubin_data unit = [] /\ use_stored_cubin unit = false.
Proof.
  run_api. repeat exec_step.
  all: intros Hrun; apply pair_inv in Hrun as [Hout _].
  all: apply (f_equal (unit_of unit)) in Hout; cbn [unit_of] in Hout; by subst.
Qed.

(** C1: [compileProgram] compiles in two stages exactly when the architecture
    number is 120 or 121 and the kernel type is HMMA.  Calls into
    nvPTXCompiler are made only under that condition; a successful compile is
    the two-stage call sequence, on the PTX options, when the condition holds
    and leaves [use_stored_cubin] set; otherwise it is the single NVRTC
    compilation on the final-architecture options and the unit, with its
    [use_stored_cubin] flag, is left as it was (false for a unit that
    [createProgram] made). *)
Theorem compileProgram_two_stage iterate ext NDEBUG prog w out w' :
  compileProgram iterate ext NDEBUG prog w = (out, w') ->
  exists new,
    libcalls w' = libcalls w ++ new /\
    (forall c, c ∈ new -> is_nvPTXCompiler_call c = true ->
       needs_two_stage (context prog)) /\
    (~ needs_two_stage (context prog) ->
     forall status prog', out = Returned (status, prog') -> prog' = prog) /\
    (forall prog', out = Returned (TLLM_XQA_JIT_SUCCESS, prog') ->
       ((exists options, two_stage_calls (program prog) options (compiler_calls new))
        <-> needs_two_stage (context prog)) /\
       (needs_two_stage (context prog) ->
          two_stage_calls (program prog)
            (build_options (getPTXSMFlag (sm (context prog))) iterate (context prog))
            (compiler_calls new) /\
          use_stored_cubin prog' = true) /\
       (~ needs_two_stage (context prog) ->
          single_stage_calls (program prog)
            (build_options (getSMFlag (sm (context prog))) iterate (context prog))
            (compiler_calls new) /\
          (use_stored_cubin prog = false -> use_stored_cubin prog' = false))) /\
    (forall c w0 status unit w1,
       createProgram ext c w0 = (Returned (status, unit), w1) ->
       use_stored_cubin unit = false).
Proof.
  intros Hrun.
  destruct (compileProgram_calls _ _ _ _ _ _ _ Hrun) as (new & Hnew & Hptx & _ & Hsame).
  exists new. split; [done|]. split; [done|]. split; [done|].
  split;
    [|intros c w0 status unit w1 Hcreate;
      apply createProgram_unit in Hcreate as (_ & _ & Hflag); exact Hflag].
  intros prog' ->.
  destruct (compileProgram_success _ _ _ _ _ _ _ Hrun) as (new' & Hnew' & _ & Htwo & Hone).
  assert (new' = new) as -> by (apply (app_inv_head (libcalls w)); congruence).
  split; [|split].
  - split.
    + intros (options & ptx_size & ptx & compiler & Hcalls).
      apply (Hptx (call_nvPTXCompilerCompile compiler ["--gpu-name=sm_120f"])); [|done].
      apply compiler_calls_elem. rewrite Hcalls.
      do 4 apply list_elem_of_further. apply list_elem_of_here.
    + intros Hneeds. eexists. apply (Htwo Hneeds).
  - intros Hneeds. destruct (Htwo Hneeds) as (? & ? & _). done.
  - intros Hneeds. destruct (Hone Hneeds) as (? & ->). done.
Qed.

(** C8: every call of [nvPTXCompilerCompile] that [compileProgram] makes, which
    it only makes for architecture 120 or 121 with the HMMA kernel, passes the
    option list [--gpu-name=sm_120f] and nothing else, for 121 as for 120; a
    successful two-stage compile makes exactly one such call. *)
Theorem compileProgram_second_stage_options iterate ext NDEBUG prog w out w' :
  compileProgram iterate ext NDEBUG prog w = (out, w') ->
  exists new,
    libcalls w' = libcalls w ++ new /\
    (forall compiler options,
       call_nvPTXCompilerCompile compiler options ∈ new ->
       options = ["--gpu-name=sm_120f"] /\
       (sm (context prog) = 120%Z \/ sm (context prog) = 121%Z) /\
       kernel_type (context prog) = TLLM_XQA_JIT_HMMA) /\
    (forall prog',
       out = Returned (TLLM_XQA_JIT_SUCCESS, prog') ->
       (sm (context prog) = 120%Z \/ sm (context prog) = 121%Z) ->
       kernel_type (context prog) = TLLM_XQA_JIT_HMMA ->
       exists compiler,
         List.filter
           (fun c => match c with call_nvPTXCompilerCompile _ _ => true | _ => false end)
           (compiler_calls new)
         = [call_nvPTXCompilerCompile compiler ["--gpu-name=sm_120f"]]).
Proof.
  intros Hrun.
  destruct (compileProgram_calls _ _ _ _ _ _ _ Hrun) as (new & Hnew & Hptx & Hopts & _).
  exists new. split; [done|]. split.
  - intros compiler options Hin. split; [by eapply Hopts|].
    by apply (Hptx _ Hin).
  - intros prog' -> Hsm Hkt.
    destruct (compileProgram_success _ _ _ _ _ _ _ Hrun) as (new' & Hnew' & _ & Htwo & _).
    assert (new' = new) as -> by (apply (app_inv_head (libcalls w)); congruence).
    destruct (Htwo (conj Hsm Hkt)) as ((ptx_size & ptx & compiler & ->) & _).
    exists compiler. reflexivity.
Qed.

(** C9: the last-error string starts empty; the size accessor returns its
    length plus one; the content accessor leaves the caller's buffer alone when
    the string is empty and otherwise writes the string and its terminator at
    the start of a buffer that has room for them; and an exported function
    that returns a status other than success leaves a non-empty message,
    without terminator inside, that is the same whatever the string held
    before the call, so a second failing call leaves only its own message. *)
Theorem last_error_string_protocol :
  gErrorString initial_world = "" /\
  (forall w,
     tllmXqaJitGetLastErrorStringSize w
     = (Returned (N.of_nat (String.length (gErrorString w)) + 1), w)) /\
  (forall w output,
     gErrorString w = "" ->
     tllmXqaJitGetLastErrorString output w = (Returned output, w)) /\
  (forall w output,
     gErrorString w <> "" ->
     string_forall not_NUL (gErrorString w) = true ->
     (String.length (gErrorString w) + 1 <= List.length output)%nat ->
     tllmXqaJitGetLastErrorString output w
     = (Returned (c_str (gErrorString w)
                  ++ drop (String.length (gErrorString w) + 1) output), w)) /\
  (forall iterate ext NDEBUG,
     (forall context,
        overwrites_on_failure
          (tllmXqaJitCreateAndCompileProgram iterate ext NDEBUG context)) /\
     (forall prog cubinSizeRet,
        overwrites_on_failure (tllmXqaJitGetCUBINSize ext prog cubinSizeRet)) /\
     (forall prog cubin,
        overwrites_on_failure (tllmXqaJitGetCUBIN ext prog cubin)) /\
     (forall prog, overwrites_on_failure (tllmXqaJitDestroyProgram ext prog))).
Proof.
  split; [reflexivity|]. split; [reflexivity|]. split.
  { intros w output Hempty. unfold tllmXqaJitGetLastErrorString, body.
    by rewrite bool_decide_eq_true_2. }
  split; [apply tllmXqaJitGetLastErrorString_copy|].
  intros iterate ext NDEBUG.
  split; [intros; apply tllmXqaJitCreateAndCompileProgram_overwrites|].
  split; [intros; apply tllmXqaJitGetCUBINSize_overwrites|].
  split; [intros; apply tllmXqaJitGetCUBIN_overwrites|].
  intros; apply tllmXqaJitDestroyProgram_overwrites.
Qed.

(** ** The statements at sample inputs *)

Lemma map_to_list_perm (m : gmap string string) : map_to_list m ≡ₚ map_to_list m.
Proof. reflexivity. Qed.

Lemma getMacroFlags_head_counts_rejected_witness :
  urem (num_q_heads ctx_bad_heads) (num_kv_heads ctx_bad_heads) = Some 2 /\
  exists w',
    getMacroFlags map_to_list true ctx_bad_heads [] initial_world =
      (Returned (TLLM_XQA_JIT_INVALID_INPUT, []), w') /\
    gErrorString w' =
      "num_q_heads (" +:+ to_string_unsigned (num_q_heads ctx_bad_heads)
      +:+ ") must be multiples of num_kv_heads ("
      +:+ to_string_unsigned (num_kv_heads ctx_bad_heads) +:+ ")." /\
    gErrorString w' <> "" /\
    contains (gErrorString w') (to_string_unsigned (num_q_heads ctx_bad_heads)) /\
    contains (gErrorString w') (to_string_unsigned (num_kv_heads ctx_bad_heads)).
Proof.
  split; [reflexivity|].
  apply (getMacroFlags_head_counts_rejected map_to_list true ctx_bad_heads [] initial_world 2).
  - reflexivity.
  - lia.
Defined.


(** C2: the claim fails on the code where the product overflows 32 bits.  In
    multi-query-token mode on the standard kernel, with [q_seq_len = 2^16]
    and [HEAD_GRP_SIZE = 2^16], every field is in the range of its type and
    the product [2^32] is not below 16, so the claim gives [M_TILESIZE=32];
    [uint32_t m] holds 0 and [getMacroFlags] emits [M_TILESIZE=16]. *)
Lemma getMacroFlags_M_TILESIZE_product_wraps :
  context_in_range ctx_long_sequence /\
  multi_query_tokens ctx_long_sequence = true /\
  kernel_type ctx_long_sequence <> TLLM_XQA_JIT_QGMMA /\
  16 <= q_seq_len ctx_long_sequence
        * (num_q_heads ctx_long_sequence / num_kv_heads ctx_long_sequence) /\
  exists flags,
    getMacroFlags map_to_list true ctx_long_sequence [] initial_world =
      (Returned (TLLM_XQA_JIT_SUCCESS, flags), initial_world) /\
    getMacroFlag "M_TILESIZE" "16" ∈ flags /\
    getMacroFlag "M_TILESIZE" "32" ∉ flags.
Proof.
  split; [unfold context_in_range; vm_compute; repeat split; discriminate|].
  split; [reflexivity|]. split; [discriminate|]. split; [vm_compute; discriminate|].
  eexists. split; [vm_compute; reflexivity|].
  split; apply (bool_decide_unpack _); vm_compute; reflexivity.
Qed.



Lemma getMacroFlags_E4M3_no_DTYPE_witness :
  exists out w',
    getMacroFlags map_to_list true (ctx_mla DATA_TYPE_E4M3) [] initial_world = (out, w') /\
    exists appended,
      out = Returned (TLLM_XQA_JIT_SUCCESS, [] ++ appended) /\
      no_flag "DTYPE" appended /\ no_flag "INPUT_FP16" appended.
Proof.
  destruct (getMacroFlags_E4M3_no_DTYPE map_to_list map_to_list_perm true
              (ctx_mla DATA_TYPE_E4M3) [] initial_world)
    as (out & w' & Hrun & He4m3 & _).
  - reflexivity.
  - right. left. reflexivity.
  - exists out, w'. split; [exact Hrun|]. apply He4m3; reflexivity.
Defined.

Lemma compileProgram_two_stage_witness :
  compileProgram table_order ext_ok true (unit_of_context (with_sm 121 ctx_sm90))
    initial_world = (run_sm121.1, run_sm121.2) /\
  exists new prog',
    libcalls run_sm121.2 = libcalls initial_world ++ new /\
    run_sm121.1 = Returned (TLLM_XQA_JIT_SUCCESS, prog') /\
    two_stage_calls 7
      (build_options (getPTXSMFlag 121) table_order (with_sm 121 ctx_sm90))
      (compiler_calls new) /\
    use_stored_cubin prog' = true.
Proof.
  split; [vm_compute; reflexivity|].
  destruct (compileProgram_two_stage table_order ext_ok true
              (unit_of_context (with_sm 121 ctx_sm90)) initial_world
              run_sm121.1 run_sm121.2 ltac:(vm_compute; reflexivity))
    as (new & Hnew & _ & _ & Hsuccess & _).
  eexists new, _. split; [exact Hnew|]. split; [reflexivity|].
  apply (Hsuccess _ eq_refl). split; [right|]; reflexivity.
Defined.

Lemma compileProgram_second_stage_options_witness :
  compileProgram table_order ext_ok true (unit_of_context (with_sm 121 ctx_sm90))
    initial_world = (run_sm121.1, run_sm121.2) /\
  exists new compiler,
    libcalls run_sm121.2 = libcalls initial_world ++ new /\
    List.filter
      (fun c => match c with call_nvPTXCompilerCompile _ _ => true | _ => false end)
      (compiler_calls new)
    = [call_nvPTXCompilerCompile compiler ["--gpu-name=sm_120f"]].
Proof.
  split; [vm_compute; reflexivity|].
  destruct (compileProgram_second_stage_options table_order ext_ok true
              (unit_of_context (with_sm 121 ctx_sm90)) initial_world
              run_sm121.1 run_sm121.2 ltac:(vm_compute; reflexivity))
    as (new & Hnew & _ & Hsuccess).
  destruct (Hsuccess _ eq_refl) as (compiler & Hone); [right; reflexivity|reflexivity|].
  exists new, compiler. split; [exact Hnew|exact Hone].
Defined.

(** Two failing calls in a row: the head counts are rejected, then NVRTC
    fails; what the accessors then hand out is the second message. *)
Lemma last_error_string_protocol_witness :
  exists unit1 w1 unit2 w2,
    tllmXqaJitCreateAndCompileProgram map_to_list ext_ok true ctx_bad_heads initial_world
      = (Returned (TLLM_XQA_JIT_INVALID_INPUT, unit1), w1) /\
    gErrorString w1 = "num_q_heads (30) must be multiples of num_kv_heads (4)." /\
    tllmXqaJitCreateAndCompileProgram map_to_list ext_nvrtc_fails true ctx_sm90 w1
      = (Returned (TLLM_XQA_JIT_INTERNAL_ERROR, unit2), w2) /\
    gErrorString w2 = "NVRTC Internal Error" /\
    tllmXqaJitGetLastErrorStringSize w2 = (Returned 21, w2) /\
    tllmXqaJitGetLastErrorString (replicate 24 x01) w2
      = (Returned (c_str "NVRTC Internal Error" ++ [x01; x01; x01]), w2).
Proof.
  destruct last_error_string_protocol as (_ & Hsize & _ & Hcopy & Hover).
  destruct (Hover map_to_list ext_nvrtc_fails true) as (Hcreate & _).
  eexists _, _, _, _. split; [vm_compute; reflexivity|]. split; [reflexivity|].
  split.
  { refine (proj2 (proj2 (Hcreate ctx_sm90
      {| gErrorString := "";
         libcalls := [call_nvrtcCreateProgram mha_cu_content] |} _ _ _ _ _))
      "num_q_heads (30) must be multiples of num_kv_heads (4).").
    - vm_compute; reflexivity.
    - discriminate. }
  split; [reflexivity|]. split; [apply Hsize|].
  rewrite (Hcopy _ (replicate 24 x01)); [reflexivity|discriminate|reflexivity|simpl; lia].
Defined.

(** * Further properties of the code *)

(** ** Further properties of the flags *)

Lemma string_length_app (s t : string) :
  String.length (s +:+ t) = (String.length s + String.length t)%nat.
Proof.
  induction s as [|c s IH]; [reflexivity|].
  change (S (String.length (s +:+ t)) = S (String.length s + String.length t)).
  by rewrite IH.
Qed.

Lemma string_app_inv_tail (s t u : string) : s +:+ u = t +:+ u -> s = t.
Proof.
  intros E.
  assert (String.length s = String.length t) as Hlen.
  { apply (f_equal String.length) in E. rewrite !string_length_app in E. lia. }
  revert t E Hlen. induction s as [|c s IH]; intros [|c' t] E Hlen;
    try discriminate Hlen; [reflexivity|].
  injection E as -> E. f_equal. apply IH; [exact E|]. simpl in Hlen. lia.
Qed.

Lemma last_char_letter_a s : last_char (s +:+ "a") = Some "a"%char.
Proof. by rewrite last_char_app_nonempty. Qed.

Lemma numeral_not_suffixed z z' : to_string_int z +:+ "a" <> to_string_int z'.
Proof.
  intros E. pose proof (to_string_int_ends_in_digit z') as Hd.
  unfold ends_in_digit in Hd. rewrite <- E, last_char_letter_a in Hd. discriminate.
Qed.

Lemma numeral_suffix_inj (b b' : bool) z z' :
  (if b then to_string_int z +:+ "a" else to_string_int z)
  = (if b' then to_string_int z' +:+ "a" else to_string_int z') ->
  z = z'.
Proof.
  destruct b, b'; intros E.
  - apply string_app_inv_tail in E. by apply (inj pretty) in E.
  - by apply numeral_not_suffixed in E.
  - symmetry in E. by apply numeral_not_suffixed in E.
  - by apply (inj pretty) in E.
Qed.

(** X1: two different architecture numbers never share a final-architecture flag. *)
Theorem getSMFlag_distinct (SM SM' : Z) : SM <> SM' -> getSMFlag SM <> getSMFlag SM'.
Proof.
  unfold getSMFlag. intros Hne E. apply Hne.
  apply (inj (String.append "-arch=sm_")) in E. by apply numeral_suffix_inj in E.
Qed.

(** X2: the PTX flag is [-arch=compute_89] for 89, 120 and 121 and for no other
    number; away from 120 and 121 two numbers never share a PTX flag. *)
Theorem getPTXSMFlag_collisions :
  (forall SM : Z,
     getPTXSMFlag SM = "-arch=compute_89" <-> (SM = 89 \/ SM = 120 \/ SM = 121)%Z) /\
  (forall SM SM' : Z,
     SM <> 120%Z -> SM <> 121%Z -> SM' <> 120%Z -> SM' <> 121%Z ->
     getPTXSMFlag SM = getPTXSMFlag SM' -> SM = SM').
Proof.
  assert (forall SM : Z, SM <> 120%Z -> SM <> 121%Z ->
    getPTXSMFlag SM =
      "-arch=compute_" +:+
      (if (SM =? 90)%Z then to_string_int SM +:+ "a" else to_string_int SM)) as Hother.
  { intros SM H120 H121. unfold getPTXSMFlag.
    apply Z.eqb_neq in H120, H121. by rewrite H120, H121. }
  split.
  - intros SM. split.
    + intros E. destruct (decide (SM = 120%Z)); [tauto|].
      destruct (decide (SM = 121%Z)); [tauto|]. left.
      rewrite Hother in E by done.
      apply (inj (String.append "-arch=compute_")) in E.
      change "89" with (if false then to_string_int 89 +:+ "a" else to_string_int 89) in E.
      by apply numeral_suffix_inj in E.
    + intros [->|[->| ->]]; reflexivity.
  - intros SM SM' ? ? ? ? E. rewrite !Hother in E by done.
    apply (inj (String.append "-arch=compute_")) in E.
    by apply numeral_suffix_inj in E.
Qed.

(** X3: a macro name without [=] and its value can be read back from the
    flag. *)
Theorem getMacroFlag_inj name value name' value' :
  string_forall not_equals_sign name = true ->
  string_forall not_equals_sign name' = true ->
  getMacroFlag name value = getMacroFlag name' value' ->
  name = name' /\ value = value'.
Proof.
  intros Hn Hn' E. unfold getMacroFlag in E.
  apply (inj (String.append "-D")) in E.
  pose proof (macro_name_inj _ _ _ _ Hn Hn' E) as <-.
  split; [reflexivity|].
  apply (inj (String.append name)) in E. by apply (inj (String.append "=")) in E.
Qed.

(** ** Further properties of macro translation *)

Lemma prefix_app (p acc x : string) :
  String.prefix p acc = true -> String.prefix p (acc +:+ x) = true.
Proof.
  revert p. induction acc as [|b acc IH]; intros [|a p] H.
  - by destruct ("" +:+ x).
  - simpl in H. discriminate H.
  - by destruct (String b acc +:+ x).
  - change (String.prefix (String a p) (String b (acc +:+ x)) = true).
    simpl in *. destruct (Ascii.ascii_dec a b); [by apply IH|discriminate].
Qed.

Lemma macros_dump_prefix entries : String.prefix "XQA Macros: " (macros_dump entries) = true.
Proof.
  unfold macros_dump.
  assert (forall acc : string,
    String.prefix "XQA Macros: " acc = true ->
    String.prefix "XQA Macros: "
      (foldl (fun ss kv => ss +:+ kv.1 +:+ "=" +:+ kv.2 +:+ " ") acc entries) = true)
    as H; [|by apply H].
  induction entries as [|[k v] entries IH]; intros acc Hacc; [done|].
  simpl. apply IH. by apply prefix_app.
Qed.

(** X4: macro translation succeeds exactly on the configurations whose query
    heads divide into the key-value heads, whose data type is FP16, BF16, or
    E4M3 on the MLA kernel, and whose cache type is INT8, E4M3, or the one that
    goes with the data type. *)
Theorem getMacroFlags_accepted_iff iterate NDEBUG c result w :
  (exists flags w',
     getMacroFlags iterate NDEBUG c result w
     = (Returned (TLLM_XQA_JIT_SUCCESS, flags), w')) <->
  urem (num_q_heads c) (num_kv_heads c) = Some 0 /\
  valid_data_type c /\ valid_kv_cache_type c.
Proof.
  split.
  - intros (flags & w' & Hrun). apply getMacroFlags_success in Hrun as (Hv & _).
    apply macro_verdict_accepted in Hv as (Hr & _ & Hd & Hk). done.
  - intros (Hr & Hd & Hk).
    destruct (getMacroFlags_accepts iterate NDEBUG c result w Hr Hd Hk) as (w' & Hrun & _).
    eauto.
Qed.

(** X5: a data type other than FP16, BF16 and E4M3 is refused with
    InvalidInput and the data-type message, whatever the cache type and the
    kernel type, and nothing is appended. *)
Theorem getMacroFlags_data_type_rejected iterate NDEBUG c result w :
  urem (num_q_heads c) (num_kv_heads c) = Some 0 ->
  data_type c <> DATA_TYPE_FP16 ->
  data_type c <> DATA_TYPE_BF16 ->
  data_type c <> DATA_TYPE_E4M3 ->
  getMacroFlags iterate NDEBUG c result w =
    (Returned (TLLM_XQA_JIT_INVALID_INPUT, result),
     with_error
       ("data_type must be DATA_TYPE_FP16 or DATA_TYPE_BF16 for non-MLA kernels "
        +:+ "and DATA_TYPE_E4M3 for the MLA kernel") w).
Proof.
  intros Hr H16 Hbf H8. rewrite getMacroFlags_run. unfold macros_result, macro_verdict.
  rewrite Hr. unfold urem, udiv in *.
  destruct (num_kv_heads c =? 0); [discriminate|].
  destruct (data_type c); done.
Qed.

(** X6: 8-bit-float data on a kernel other than MLA fails the [TLLM_CHECK]:
    the call does not return, and error string, output list and libraries are
    left alone. *)
Theorem getMacroFlags_E4M3_needs_MLA iterate NDEBUG c result w :
  urem (num_q_heads c) (num_kv_heads c) = Some 0 ->
  data_type c = DATA_TYPE_E4M3 ->
  kernel_type c <> TLLM_XQA_JIT_MLA ->
  getMacroFlags iterate NDEBUG c result w = (Aborted AssertionFailure, w).
Proof.
  intros Hr Hd Hk. rewrite getMacroFlags_run. unfold macros_result, macro_verdict.
  rewrite Hr, Hd. unfold urem, udiv in *.
  destruct (num_kv_heads c =? 0); [discriminate|].
  destruct (kernel_type c); done.
Qed.

(** X7: macro translation talks to the outside only in builds without
    [NDEBUG], and only when it succeeds: there it prints one line that starts
    with [XQA Macros: ]. *)
Theorem getMacroFlags_output iterate NDEBUG c result w status flags w' :
  getMacroFlags iterate NDEBUG c result w = (Returned (status, flags), w') ->
  (status <> TLLM_XQA_JIT_SUCCESS -> libcalls w' = libcalls w) /\
  (status = TLLM_XQA_JIT_SUCCESS ->
     gErrorString w' = gErrorString w /\
     if NDEBUG then w' = w
     else exists text,
       libcalls w' = libcalls w ++ [call_puts text] /\
       String.prefix "XQA Macros: " text = true).
Proof.
  rewrite getMacroFlags_run. unfold macros_result.
  destruct (macro_verdict c) as [q|message|why]; [| |discriminate].
  - intros Hrun. apply pair_inv in Hrun as [Hout <-].
    apply (f_equal status_of) in Hout. cbn [status_of] in Hout.
    split; [congruence|]. intros _. destruct NDEBUG; [done|].
    split; [done|]. eexists. split; [reflexivity|]. apply macros_dump_prefix.
  - intros Hrun. apply pair_inv in Hrun as [Hout <-].
    apply (f_equal status_of) in Hout. cbn [status_of] in Hout.
    split; [done|]. congruence.
Qed.

Section MoreTranslation.

Variable iterate : gmap string string -> list (string * string).
Hypothesis iterate_perm : forall m, iterate m ≡ₚ map_to_list m.
Variable NDEBUG : bool.





(** X11: no macro is defined twice, and the number of flags is 15, plus two for
    FP16 or BF16 data, plus one in multi-query-token mode. *)
Theorem getMacroFlags_each_macro_once c result w flags w' :
  getMacroFlags iterate NDEBUG c result w =
    (Returned (TLLM_XQA_JIT_SUCCESS, flags), w') ->
  exists appended,
    flags = result ++ appended /\
    (forall name,
       string_forall not_equals_sign name = true ->
       (exists value, only_flag name value appended) \/ no_flag name appended) /\
    List.length appended =
      (15 + (if bool_decide (data_type c = DATA_TYPE_FP16 \/ data_type c = DATA_TYPE_BF16)
             then 2 else 0)
          + (if multi_query_tokens c then 1 else 0))%nat.
Proof.
  intros Hrun. apply getMacroFlags_success in Hrun as (_ & -> & _).
  eexists. split; [reflexivity|]. split.
  - intros name Hname.
    destruct (decide
      (name ∈ (macro_entries c (num_q_heads c / num_kv_heads c)).*1)) as [Hin|Hout].
    + left. apply list_elem_of_fmap in Hin as ([k value] & -> & Hin).
      exists value. by apply (accepted_only_flag iterate iterate_perm).
    + right. by apply (accepted_no_flag iterate iterate_perm).
  - rewrite length_fmap.
    rewrite (Permutation_length
      (iterate_entries iterate iterate_perm _ (macro_entries_NoDup _ _))).
    unfold macro_entries, data_type_entries. rewrite !length_app.
    destruct (data_type c), (multi_query_tokens c); reflexivity.
Qed.

End MoreTranslation.

(** X12: both option assemblers put the three common flags and the architecture
    flag first and the macro flags after them; when macro translation fails
    its status is returned and the four flags are already in the list.  The
    two assemblers differ in the architecture flag only. *)
Theorem getBuildOptions_layout iterate NDEBUG prog result w :
  let common := ["-dw"; "--use_fast_math"; "-default-device"] in
  let final := result ++ common ++ [getSMFlag (sm (context prog))] in
  let ptx := result ++ common ++ [getPTXSMFlag (sm (context prog))] in
  match getMacroFlags iterate NDEBUG (context prog) [] w with
  | (Returned (TLLM_XQA_JIT_SUCCESS, macros), w') =>
      getBuildOptions iterate NDEBUG prog result w =
        (Returned (TLLM_XQA_JIT_SUCCESS, final ++ macros), w') /\
      getBuildOptionsPTX iterate NDEBUG prog result w =
        (Returned (TLLM_XQA_JIT_SUCCESS, ptx ++ macros), w')
  | (Returned (status, _), w') =>
      getBuildOptions iterate NDEBUG prog result w = (Returned (status, final), w') /\
      getBuildOptionsPTX iterate NDEBUG prog result w = (Returned (status, ptx), w')
  | (Aborted why, w') =>
      getBuildOptions iterate NDEBUG prog result w = (Aborted why, w') /\
      getBuildOptionsPTX iterate NDEBUG prog result w = (Aborted why, w')
  end.
Proof.
  intros common final ptx. subst common final ptx.
  rewrite getBuildOptions_run, getBuildOptionsPTX_run, getMacroFlags_run.
  unfold build_options_result, macros_result.
  destruct (macro_verdict (context prog)); cbn [app]; rewrite <- ?app_assoc; done.
Qed.

(** ** Failures of the compilation driver *)

Ltac failure_leaf :=
  first
    [ left; split; [reflexivity|]; split; [reflexivity|]; split; [reflexivity|];
      reflexivity
    | right; split; [reflexivity|]; eexists; split; [reflexivity|];
      split; [reflexivity|]; split; [reflexivity|]; split; [reflexivity|];
      cbn [use_stored_cubin]; intros Hstored; split;
      [ intros Htrue; first [congruence | eexists; reflexivity]
      | intros [compiler Hlast]; first [reflexivity | discriminate Hlast] ] ].

Lemma compileProgram_failures iterate ext NDEBUG prog w status prog' w' :
  compileProgram iterate ext NDEBUG prog w = (Returned (status, prog'), w') ->
  status <> TLLM_XQA_JIT_SUCCESS ->
  exists new,
    libcalls w' = libcalls w ++ new /\
    ((status = TLLM_XQA_JIT_INVALID_INPUT /\
      refused_before_compiling prog prog' new (gErrorString w')) \/
     (status = TLLM_XQA_JIT_INTERNAL_ERROR /\
      library_call_failed prog prog' new (gErrorString w'))).
Proof.
  intros Hrun Hfail.
  pose proof (f_equal (fun r => status_of r.1) Hrun) as Hstatus.
  pose proof (f_equal (fun r => unit_of prog r.1) Hrun) as Hprog.
  apply (f_equal snd) in Hrun.
  revert Hstatus Hprog Hrun. unfold refused_before_compiling, library_call_failed.
  destruct NDEBUG.
  all: start_compile (context prog).
  all: destruct (macro_verdict (context prog)) eqn:Hv; fields.
  all: repeat exec_step.
  all: cbn [status_of unit_of]; intros Hstatus Hprog Hrun; try discriminate Hstatus.
  all: try (exfalso; congruence).
  all: apply (inj Some) in Hstatus; subst status prog' w'; fields.
  all: eexists; (split; [rewrite <- ?app_assoc; try reflexivity; symmetry; apply app_nil_r|]).
  all: failure_leaf.
Qed.

Lemma table_order_perm (m : gmap string string) : table_order m ≡ₚ map_to_list m.
Proof. reflexivity. Qed.

Lemma getMacroFlags_rejected iterate NDEBUG c message :
  macro_verdict c = MacrosRejected message ->
  forall result w,
    getMacroFlags iterate NDEBUG c result w =
      (Returned (TLLM_XQA_JIT_INVALID_INPUT, result), with_error message w).
Proof.
  intros Hv result w. rewrite getMacroFlags_run. unfold macros_result. by rewrite Hv.
Qed.

Lemma compileProgram_rejected iterate ext NDEBUG prog w message :
  macro_verdict (context prog) = MacrosRejected message ->
  (compileProgram iterate ext NDEBUG prog w).1
  = Returned (TLLM_XQA_JIT_INVALID_INPUT, prog).
Proof.
  intros Hv. destruct NDEBUG; start_compile (context prog); rewrite Hv; reflexivity.
Qed.

Lemma compileProgram_aborted iterate ext NDEBUG prog w why :
  macro_verdict (context prog) = MacrosAborted why ->
  (compileProgram iterate ext NDEBUG prog w).1 = Aborted why.
Proof.
  intros Hv. destruct NDEBUG; start_compile (context prog); rewrite Hv; reflexivity.
Qed.

(** X13: a configuration without key-value heads is not refused: the remainder
    by [num_kv_heads] is taken before any check, and the division by zero
    stops macro translation and the compilation without a status. *)
Theorem getMacroFlags_zero_kv_heads iterate ext NDEBUG c :
  num_kv_heads c = 0 ->
  (forall result w,
     getMacroFlags iterate NDEBUG c result w = (Aborted DivisionByZero, w)) /\
  (forall prog w,
     context prog = c ->
     (compileProgram iterate ext NDEBUG prog w).1 = Aborted DivisionByZero).
Proof.
  intros Hz.
  assert (macro_verdict c = MacrosAborted DivisionByZero) as Hv
    by (unfold macro_verdict, urem, udiv; rewrite Hz; reflexivity).
  split.
  - intros result w. rewrite getMacroFlags_run. unfold macros_result. by rewrite Hv.
  - intros prog w <-. by apply compileProgram_aborted.
Qed.

(** X14: [compileProgram] returns InvalidInput exactly when macro translation
    refuses the configuration; no compiler has then been called, the unit is
    as it was and the message is the one of the translation. *)
Theorem compileProgram_invalid_input iterate ext NDEBUG prog w status prog' w' :
  compileProgram iterate ext NDEBUG prog w = (Returned (status, prog'), w') ->
  (status = TLLM_XQA_JIT_INVALID_INPUT <->
   (getMacroFlags iterate NDEBUG (context prog) [] w).1
   = Returned (TLLM_XQA_JIT_INVALID_INPUT, [])) /\
  (status = TLLM_XQA_JIT_INVALID_INPUT ->
   prog' = prog /\
   gErrorString w' = gErrorString (getMacroFlags iterate NDEBUG (context prog) [] w).2 /\
   exists new, libcalls w' = libcalls w ++ new /\ compiler_calls new = []).
Proof.
  intros Hrun.
  assert (status = TLLM_XQA_JIT_INVALID_INPUT ->
          prog' = prog /\
          (exists new, libcalls w' = libcalls w ++ new /\ compiler_calls new = []) /\
          macro_verdict (context prog) = MacrosRejected (gErrorString w')) as Hinv.
  { intros ->.
    destruct (compileProgram_failures _ _ _ _ _ _ _ _ Hrun) as (new & Hnew & Hcase);
      [discriminate|].
    destruct Hcase as [(_ & -> & Hcalls & Hv)|(Hst & _)]; [|discriminate]. eauto. }
  split; [split|].
  - intros Hst. destruct (Hinv Hst) as (_ & _ & Hv).
    by rewrite (getMacroFlags_rejected _ _ _ _ Hv).
  - rewrite getMacroFlags_run. unfold macros_result.
    destruct (macro_verdict (context prog)) as [q|message|why] eqn:Hv;
      [discriminate| |discriminate].
    intros _. pose proof (compileProgram_rejected iterate ext NDEBUG prog w _ Hv) as Hrej.
    rewrite Hrun in Hrej. apply (f_equal status_of) in Hrej. cbn in Hrej. congruence.
  - intros Hst. destruct (Hinv Hst) as (-> & Hnew & Hv).
    rewrite (getMacroFlags_rejected _ _ _ _ Hv). done.
Qed.

(** X15: when [compileProgram] returns InternalError a compiler call was made,
    and the message names the library of the call that failed: nvPTXCompiler
    for its five functions, NVRTC otherwise. *)
Theorem compileProgram_internal_error iterate ext NDEBUG prog w prog' w' :
  compileProgram iterate ext NDEBUG prog w =
    (Returned (TLLM_XQA_JIT_INTERNAL_ERROR, prog'), w') ->
  exists new failed,
    libcalls w' = libcalls w ++ new /\
    last (compiler_calls new) = Some failed /\
    gErrorString w' =
      (if is_nvPTXCompiler_call failed
       then "nvPTXCompiler Internal Error" else "NVRTC Internal Error").
Proof.
  intros Hrun.
  destruct (compileProgram_failures _ _ _ _ _ _ _ _ Hrun) as (new & Hnew & Hcase);
    [discriminate|].
  destruct Hcase as [(? & _)|(_ & failed & Hlast & Hmsg & _)]; [discriminate|].
  by exists new, failed.
Qed.


Lemma compileProgram_aborted_world iterate ext NDEBUG prog w why :
  macro_verdict (context prog) = MacrosAborted why ->
  exists new w',
    compileProgram iterate ext NDEBUG prog w = (Aborted why, w') /\
    libcalls w' = libcalls w ++ new /\ compiler_calls new = [] /\
    gErrorString w' = gErrorString w.
Proof.
  intros Hv. destruct NDEBUG; start_compile (context prog); rewrite Hv; fields.
  all: eexists _, _; (split; [reflexivity|]); fields.
  all: (split; [try reflexivity; symmetry; apply app_nil_r|]); done.
Qed.

(** Unfolding of [tllmXqaJitCreateAndCompileProgram] down to the call of
    [compileProgram]. *)
Ltac run_create :=
  lazy beta iota zeta delta
    [tllmXqaJitCreateAndCompileProgram createProgram
     body seq call pure return_ abort extern
     setErrorString CHECK_NVRTC_ERROR CHECK_TLLM_XQA_JIT_ERROR
     with_error logged source_of]; fields.

(** [tllmXqaJitCreateAndCompileProgram] is the creation of the program
    followed, when it succeeds, by [compileProgram] on the new unit. *)
Lemma tllmXqaJitCreateAndCompileProgram_run iterate ext NDEBUG c w :
  let src := source_of (kernel_type c) in
  let created := nvrtcCreateProgram ext (libcalls w) src in
  let unit :=
    {| program := created.2; context := c;
       cubin_data := []; use_stored_cubin := false |} in
  let w1 := logged (call_nvrtcCreateProgram src) w in
  tllmXqaJitCreateAndCompileProgram iterate ext NDEBUG c w =
    match created.1 with
    | NVRTC_SUCCESS => compileProgram iterate ext NDEBUG unit w1
    | NVRTC_ERROR _ =>
        (Returned (TLLM_XQA_JIT_INTERNAL_ERROR, unit),
         with_error "NVRTC Internal Error" w1)
    end.
Proof.
  intros src created unit w1. subst src created unit w1. run_create.
  assert ((if bool_decide (kernel_type c = TLLM_XQA_JIT_MLA) then mla_sm120_cu_content
           else if bool_decide (kernel_type c = TLLM_XQA_JIT_QGMMA)
                then mha_sm90_cu_content else mha_cu_content)
          = match kernel_type c with
            | TLLM_XQA_JIT_MLA => mla_sm120_cu_content
            | TLLM_XQA_JIT_QGMMA => mha_sm90_cu_content
            | TLLM_XQA_JIT_HMMA => mha_cu_content
            end) as -> by (by destruct (kernel_type c)).
  destruct (nvrtcCreateProgram ext (libcalls w) _) as [[|code] handle]; fields;
    [|reflexivity].
  destruct (compileProgram _ _ _ _ _) as [[[[] prog']|why] w2]; reflexivity.
Qed.

(** ** The exported functions *)

Lemma compileProgram_steps iterate ext NDEBUG prog w out w' :
  compileProgram iterate ext NDEBUG prog w = (out, w') ->
  exists new,
    libcalls w' = libcalls w ++ new /\
    Forall (fun c => is_compile_step c = true) new.
Proof.
  destruct NDEBUG.
  all: start_compile (context prog).
  all: destruct (macro_verdict (context prog)) eqn:Hv; fields.
  all: repeat exec_step.
  all: intros Hrun; apply pair_inv in Hrun as [<- <-]; fields.
  all: eexists; (split; [rewrite <- ?app_assoc; try reflexivity; symmetry; apply app_nil_r|]).
  all: apply Forall_forall; intros c Hin; in_new Hin; subst; reflexivity.
Qed.

(** X17: every call of [tllmXqaJitCreateAndCompileProgram] starts by creating
    one NVRTC program and never creates a second one, releases it or reads its
    cubin, whether the call succeeds, fails or does not return. *)
Theorem tllmXqaJitCreateAndCompileProgram_keeps_program iterate ext NDEBUG c w out w' :
  tllmXqaJitCreateAndCompileProgram iterate ext NDEBUG c w = (out, w') ->
  exists rest,
    libcalls w' =
      libcalls w ++ call_nvrtcCreateProgram (source_of (kernel_type c)) :: rest /\
    Forall (fun call => is_compile_step call = true) rest.
Proof.
  rewrite tllmXqaJitCreateAndCompileProgram_run. cbn zeta.
  destruct (nvrtcCreateProgram ext (libcalls w) _) as [[|code] handle]; cbn [fst snd].
  - intros Hrun. apply compileProgram_steps in Hrun as (new & Hnew & Hsteps).
    exists new. split; [|done]. rewrite Hnew. unfold logged. cbn [libcalls].
    by rewrite <- app_assoc.
  - intros Hrun. apply pair_inv in Hrun as [_ <-]. exists []. split; [reflexivity|].
    constructor.
Qed.

(** X18: when NVRTC cannot create the program, the call returns InternalError
    after that one library call, for every configuration: the configuration is
    not looked at, so this is also what a configuration with no key-value
    heads, or one that macro translation would refuse, gets. *)
Theorem tllmXqaJitCreateAndCompileProgram_creation_fails iterate ext NDEBUG c w code handle :
  nvrtcCreateProgram ext (libcalls w) (source_of (kernel_type c))
  = (NVRTC_ERROR code, handle) ->
  tllmXqaJitCreateAndCompileProgram iterate ext NDEBUG c w =
    (Returned
       (TLLM_XQA_JIT_INTERNAL_ERROR,
        {| program := handle; context := c;
           cubin_data := []; use_stored_cubin := false |}),
     {| gErrorString := "NVRTC Internal Error";
        libcalls := libcalls w ++ [call_nvrtcCreateProgram (source_of (kernel_type c))] |}).
Proof.
  intros Hcreate. rewrite tllmXqaJitCreateAndCompileProgram_run. cbn zeta.
  rewrite Hcreate. reflexivity.
Qed.

(** X19: 8-bit-float data on a kernel other than MLA stops the exported call at
    the assertion after the NVRTC program has been created: the call does not
    return, no compiler has run and the last-error string is as before. *)
Theorem tllmXqaJitCreateAndCompileProgram_assertion iterate ext NDEBUG c w handle :
  urem (num_q_heads c) (num_kv_heads c) = Some 0 ->
  data_type c = DATA_TYPE_E4M3 ->
  kernel_type c <> TLLM_XQA_JIT_MLA ->
  nvrtcCreateProgram ext (libcalls w) (source_of (kernel_type c))
  = (NVRTC_SUCCESS, handle) ->
  exists new w',
    tllmXqaJitCreateAndCompileProgram iterate ext NDEBUG c w
    = (Aborted AssertionFailure, w') /\
    libcalls w' = libcalls w ++ new /\
    compiler_calls new = [call_nvrtcCreateProgram (source_of (kernel_type c))] /\
    gErrorString w' = gErrorString w.
Proof.
  intros Hr Hd Hk Hcreate. rewrite tllmXqaJitCreateAndCompileProgram_run. cbn zeta.
  rewrite Hcreate. cbn [fst snd].
  assert (macro_verdict c = MacrosAborted AssertionFailure) as Hv.
  { unfold macro_verdict. rewrite Hr, Hd. unfold urem, udiv in *.
    destruct (num_kv_heads c =? 0); [discriminate|]. by destruct (kernel_type c). }
  edestruct (compileProgram_aborted_world iterate ext NDEBUG
    {| program := handle; context := c; cubin_data := []; use_stored_cubin := false |}
    (logged (call_nvrtcCreateProgram (source_of (kernel_type c))) w))
    as (new & w' & Hrun & Hnew & Hcalls & Herr); [exact Hv|].
  exists (call_nvrtcCreateProgram (source_of (kernel_type c)) :: new), w'.
  split; [exact Hrun|]. split.
  { rewrite Hnew. unfold logged. cbn [libcalls]. by rewrite <- app_assoc. }
  split; [|exact Herr].
  unfold compiler_calls in *. cbn [List.filter is_stdio_call negb]. by rewrite Hcalls.
Qed.

(** X20: a call that returns success leaves the last-error string as it was, so
    the message of an earlier failure stays readable. *)
Theorem success_keeps_last_error iterate ext NDEBUG :
  (forall c w unit w',
     tllmXqaJitCreateAndCompileProgram iterate ext NDEBUG c w
     = (Returned (TLLM_XQA_JIT_SUCCESS, unit), w') ->
     gErrorString w' = gErrorString w) /\
  (forall prog cubinSizeRet w size w',
     tllmXqaJitGetCUBINSize ext prog cubinSizeRet w
     = (Returned (TLLM_XQA_JIT_SUCCESS, size), w') ->
     gErrorString w' = gErrorString w) /\
  (forall prog cubin w cubin' w',
     tllmXqaJitGetCUBIN ext prog cubin w
     = (Returned (TLLM_XQA_JIT_SUCCESS, cubin'), w') ->
     gErrorString w' = gErrorString w) /\
  (forall prog w unit w',
     tllmXqaJitDestroyProgram ext prog w
     = (Returned (TLLM_XQA_JIT_SUCCESS, unit), w') ->
     gErrorString w' = gErrorString w).
Proof.
  split; [|split; [|split]].
  - intros c w unit w'. rewrite tllmXqaJitCreateAndCompileProgram_run. cbn zeta.
    destruct (nvrtcCreateProgram ext (libcalls w) _) as [[|code] handle]; cbn [fst snd].
    + intros Hrun. by apply compileProgram_success in Hrun as (new & _ & -> & _).
    + intros Hrun. apply pair_inv in Hrun as [Hout _].
      apply (f_equal status_of) in Hout. discriminate Hout.
  - intros prog n w size w'. run_api. repeat exec_step.
    all: intros Hrun; apply pair_inv in Hrun as [Hout <-].
    all: apply (f_equal status_of) in Hout; cbn [status_of] in Hout.
    all: first [discriminate Hout | reflexivity].
  - intros prog cubin w cubin' w'. run_api. repeat exec_step.
    all: intros Hrun; apply pair_inv in Hrun as [Hout <-].
    all: try apply (f_equal status_of) in Hout; cbn [status_of] in Hout.
    all: first [discriminate Hout | reflexivity].
  - intros prog w unit w'. run_api. repeat exec_step.
    all: intros Hrun; apply pair_inv in Hrun as [Hout <-].
    all: apply (f_equal status_of) in Hout; cbn [status_of] in Hout.
    all: first [discriminate Hout | reflexivity].
Qed.

Lemma tllmXqaJitGetCUBINSize_stored ext prog cubinSizeRet w :
  use_stored_cubin prog = true ->
  tllmXqaJitGetCUBINSize ext prog cubinSizeRet w
  = (Returned (TLLM_XQA_JIT_SUCCESS, N.of_nat (List.length (cubin_data prog))), w).
Proof. intros Hs. run_api. rewrite Hs. reflexivity. Qed.

Lemma tllmXqaJitGetCUBIN_stored ext prog cubin w :
  use_stored_cubin prog = true ->
  tllmXqaJitGetCUBIN ext prog cubin w
  = match memcpy cubin (cubin_data prog) with
    | Some cubin' => (Returned (TLLM_XQA_JIT_SUCCESS, cubin'), w)
    | None => (Aborted BufferOverflow, w)
    end.
Proof. intros Hs. run_api. rewrite Hs. by destruct (memcpy _ _). Qed.

Lemma tllmXqaJitGetCUBINSize_nvrtc ext prog cubinSizeRet w :
  use_stored_cubin prog = false ->
  libcalls (tllmXqaJitGetCUBINSize ext prog cubinSizeRet w).2
  = libcalls w ++ [call_nvrtcGetCUBINSize (program prog)].
Proof. intros Hs. run_api. rewrite Hs. repeat exec_step; reflexivity. Qed.

Lemma tllmXqaJitGetCUBIN_nvrtc ext prog cubin w :
  use_stored_cubin prog = false ->
  libcalls (tllmXqaJitGetCUBIN ext prog cubin w).2
  = libcalls w ++ [call_nvrtcGetCUBIN (program prog)].
Proof. intros Hs. run_api. rewrite Hs. repeat exec_step; reflexivity. Qed.

(** X21: with a stored cubin the size query and the copy never call a library
    and never fail: the size is the length of the stored cubin, and the copy
    into a buffer of at least that size writes the stored cubin at its start
    and leaves the rest; into a shorter buffer the [memcpy] runs past the
    end. *)
Theorem stored_cubin_size_then_copy ext prog w :
  use_stored_cubin prog = true ->
  (forall cubinSizeRet,
     tllmXqaJitGetCUBINSize ext prog cubinSizeRet w
     = (Returned (TLLM_XQA_JIT_SUCCESS, N.of_nat (List.length (cubin_data prog))), w)) /\
  (forall cubin,
     (List.length (cubin_data prog) <= List.length cubin)%nat ->
     tllmXqaJitGetCUBIN ext prog cubin w
     = (Returned
          (TLLM_XQA_JIT_SUCCESS,
           cubin_data prog ++ drop (List.length (cubin_data prog)) cubin), w)) /\
  (forall cubin,
     List.length cubin = List.length (cubin_data prog) ->
     tllmXqaJitGetCUBIN ext prog cubin w
     = (Returned (TLLM_XQA_JIT_SUCCESS, cubin_data prog), w)) /\
  (forall cubin,
     (List.length cubin < List.length (cubin_data prog))%nat ->
     tllmXqaJitGetCUBIN ext prog cubin w = (Aborted BufferOverflow, w)).
Proof.
  intros Hs. split; [intros; by apply tllmXqaJitGetCUBINSize_stored|].
  split; [|split]; intros cubin Hlen; rewrite tllmXqaJitGetCUBIN_stored by done;
    unfold memcpy.
  - destruct (Nat.leb_spec (List.length (cubin_data prog)) (List.length cubin));
      [reflexivity|lia].
  - destruct (Nat.leb_spec (List.length (cubin_data prog)) (List.length cubin)); [|lia].
    rewrite <- Hlen, drop_all, app_nil_r. reflexivity.
  - destruct (Nat.leb_spec (List.length (cubin_data prog)) (List.length cubin));
      [lia|reflexivity].
Qed.

(** X22: after a successful two-stage compile the cubin is served from the unit
    without a call to NVRTC; after a successful single-stage compile of a unit
    without stored cubin both accessors ask NVRTC, on the unit's program. *)
Theorem cubin_after_compile iterate ext NDEBUG prog w prog' w' :
  compileProgram iterate ext NDEBUG prog w
  = (Returned (TLLM_XQA_JIT_SUCCESS, prog'), w') ->
  use_stored_cubin prog = false ->
  (needs_two_stage (context prog) ->
   forall cubinSizeRet cubin,
     tllmXqaJitGetCUBINSize ext prog' cubinSizeRet w'
     = (Returned (TLLM_XQA_JIT_SUCCESS, N.of_nat (List.length (cubin_data prog'))), w') /\
     (tllmXqaJitGetCUBIN ext prog' cubin w').2 = w') /\
  (~ needs_two_stage (context prog) ->
   forall cubinSizeRet cubin,
     libcalls (tllmXqaJitGetCUBINSize ext prog' cubinSizeRet w').2
     = libcalls w' ++ [call_nvrtcGetCUBINSize (program prog)] /\
     libcalls (tllmXqaJitGetCUBIN ext prog' cubin w').2
     = libcalls w' ++ [call_nvrtcGetCUBIN (program prog)]).
Proof.
  intros Hrun Hfalse.
  apply compileProgram_success in Hrun as (new & _ & _ & Htwo & Hone).
  split.
  - intros Hneeds n cubin. destruct (Htwo Hneeds) as (_ & Hstored & _).
    split; [by apply tllmXqaJitGetCUBINSize_stored|].
    rewrite tllmXqaJitGetCUBIN_stored by done. by destruct (memcpy _ _).
  - intros Hneeds n cubin. destruct (Hone Hneeds) as (_ & ->).
    split; [by apply tllmXqaJitGetCUBINSize_nvrtc|by apply tllmXqaJitGetCUBIN_nvrtc].
Qed.

(** X23: [tllmXqaJitDestroyProgram] always returns, after one call of
    [nvrtcDestroyProgram] on the unit's program: with success and a null unit
    when NVRTC released the program, and otherwise with InternalError, the
    NVRTC message and the unit still in place. *)
Theorem tllmXqaJitDestroyProgram_result ext prog w :
  exists status unit w',
    tllmXqaJitDestroyProgram ext prog w = (Returned (status, unit), w') /\
    libcalls w' = libcalls w ++ [call_nvrtcDestroyProgram (program prog)] /\
    ((status = TLLM_XQA_JIT_SUCCESS /\ unit = None /\
      nvrtcDestroyProgram ext (libcalls w) (program prog) = NVRTC_SUCCESS) \/
     (status = TLLM_XQA_JIT_INTERNAL_ERROR /\ unit = Some prog /\
      gErrorString w' = "NVRTC Internal Error" /\
      nvrtcDestroyProgram ext (libcalls w) (program prog) <> NVRTC_SUCCESS)).
Proof.
  run_api. destruct (nvrtcDestroyProgram ext (libcalls w) (program prog)) eqn:Hd; fields.
  - eexists _, _, _. split; [reflexivity|]. split; [reflexivity|]. left. done.
  - eexists _, _, _. split; [reflexivity|]. split; [reflexivity|]. right. done.
Qed.

(** X24: the size the size accessor reports is the least buffer length for
    which the content accessor is defined; the accessor keeps the length of
    the buffer and the world, and past the terminator the buffer is as it
    was. *)
Theorem tllmXqaJitGetLastErrorString_buffer w output :
  gErrorString w <> "" ->
  string_forall not_NUL (gErrorString w) = true ->
  exists size,
    tllmXqaJitGetLastErrorStringSize w = (Returned size, w) /\
    (size <= N.of_nat (List.length output) ->
     exists output',
       tllmXqaJitGetLastErrorString output w = (Returned output', w) /\
       List.length output' = List.length output /\
       take (N.to_nat size) output' = c_str (gErrorString w) /\
       drop (N.to_nat size) output' = drop (N.to_nat size) output) /\
    (N.of_nat (List.length output) < size ->
     tllmXqaJitGetLastErrorString output w = (Aborted BufferOverflow, w)).
Proof.
  intros Hne Hnul. eexists. split; [reflexivity|].
  assert (List.length (c_str (gErrorString w)) = (String.length (gErrorString w) + 1)%nat)
    as Hlen by (unfold c_str; rewrite length_app, length_list_byte_of_string; reflexivity).
  assert (N.to_nat (N.of_nat (String.length (gErrorString w)) + 1)
          = (String.length (gErrorString w) + 1)%nat) as Hsize by lia.
  split.
  - intros Hfit. eexists. split.
    { apply tllmXqaJitGetLastErrorString_copy; [done|done|lia]. }
    rewrite Hsize, <- Hlen. split; [|split].
    + rewrite length_app, length_drop. lia.
    + by rewrite take_app_length.
    + by rewrite drop_app_length.
  - intros Hshort. unfold tllmXqaJitGetLastErrorString, body.
    rewrite bool_decide_eq_false_2 by done.
    unfold strcpy, memcpy. rewrite until_NUL_c_str by done.
    fold (c_str (gErrorString w)). rewrite Hlen.
    destruct (Nat.leb_spec (String.length (gErrorString w) + 1) (List.length output));
      [lia|reflexivity].
Qed.

(** ** The compilation log and healthy libraries *)

(** X25: in a build with [NDEBUG] the compilation prints nothing and never
    reads the compilation log; in any build, when the log is asked for, NVRTC
    has refused to compile and the call returns InternalError with the NVRTC
    message, whether or not the log could be read. *)
Theorem compileProgram_program_log iterate ext NDEBUG prog w out w' :
  compileProgram iterate ext NDEBUG prog w = (out, w') ->
  exists new,
    libcalls w' = libcalls w ++ new /\
    (NDEBUG = true ->
     Forall (fun c => is_stdio_call c = false /\ is_log_call c = false) new) /\
    (forall c, c ∈ new -> is_log_call c = true ->
       NDEBUG = false /\
       status_of out = Some TLLM_XQA_JIT_INTERNAL_ERROR /\
       gErrorString w' = "NVRTC Internal Error").
Proof.
  destruct NDEBUG.
  all: start_compile (context prog).
  all: destruct (macro_verdict (context prog)) eqn:Hv; fields.
  all: repeat exec_step.
  all: intros Hrun; apply pair_inv in Hrun as [<- <-]; fields.
  all: eexists; (split; [rewrite <- ?app_assoc; try reflexivity; symmetry; apply app_nil_r|]).
  all: split;
    [ intros HN; try discriminate HN;
      apply Forall_forall; intros c Hin; in_new Hin; subst; split; reflexivity
    | intros c Hin Hlog; in_new Hin; subst; try discriminate Hlog;
      repeat split; reflexivity ].
Qed.

(** The nine facts of [libraries_succeed], by name. *)
Ltac healthy H :=
  destruct H as (Hcreate & Hcompile & Hptxsize & Hptx & Hpcreate & Hpcompile
                 & Hpsize & Hpget & Hpdestroy).


Lemma compileProgram_succeeds iterate ext NDEBUG prog w :
  libraries_succeed ext ->
  (exists q, macro_verdict (context prog) = MacrosAccepted q) ->
  exists prog' w',
    compileProgram iterate ext NDEBUG prog w
    = (Returned (TLLM_XQA_JIT_SUCCESS, prog'), w').
Proof.
  intros Hs [q Hv]. healthy Hs.
  destruct NDEBUG.
  all: start_compile (context prog).
  all: rewrite Hv; fields.
  all: rewrite ?Hcompile, ?Hpcompile, ?Hpdestroy; fields.
  all: repeat first
    [ rewrite Hcompile | rewrite Hpcompile | rewrite Hpdestroy
    | match goal with
      | |- context [nvrtcGetPTXSize ?e ?p ?a] =>
          let H := fresh in
          pose proof (Hptxsize p a) as H;
          destruct (nvrtcGetPTXSize e p a) as [? ?]; cbn [fst] in H; subst
      | |- context [nvrtcGetPTX ?e ?p ?a ?b] =>
          let H := fresh in
          pose proof (Hptx p a b) as H;
          destruct (nvrtcGetPTX e p a b) as [? ?]; cbn [fst] in H; subst
      | |- context [nvPTXCompilerCreate ?e ?p ?a ?b] =>
          let H := fresh in
          pose proof (Hpcreate p a b) as H;
          destruct (nvPTXCompilerCreate e p a b) as [? ?]; cbn [fst] in H; subst
      | |- context [nvPTXCompilerGetCompiledProgramSize ?e ?p ?a] =>
          let H := fresh in
          pose proof (Hpsize p a) as H;
          destruct (nvPTXCompilerGetCompiledProgramSize e p a) as [? ?];
          cbn [fst] in H; subst
      | |- context [nvPTXCompilerGetCompiledProgram ?e ?p ?a ?b] =>
          let H := fresh in
          pose proof (Hpget p a b) as H;
          destruct (nvPTXCompilerGetCompiledProgram e p a b) as [? ?];
          cbn [fst] in H; subst
      end ]; fields.
  all: eexists _, _; reflexivity.
Qed.

(** What a successful compilation leaves in [cubin_data]. *)
Lemma compileProgram_stored_cubin iterate ext NDEBUG prog w prog' w' :
  compileProgram iterate ext NDEBUG prog w =
    (Returned (TLLM_XQA_JIT_SUCCESS, prog'), w') ->
  exists new,
    libcalls w' = libcalls w ++ new /\
    (needs_two_stage (context prog) ->
     stores_compiled_program ext (libcalls w) (cubin_data prog) prog' new) /\
    (~ needs_two_stage (context prog) -> cubin_data prog' = cubin_data prog).
Proof.
  intros Hrun.
  pose proof (f_equal (fun r => status_of r.1) Hrun) as Hstatus.
  pose proof (f_equal (fun r => unit_of prog r.1) Hrun) as Hprog.
  apply (f_equal snd) in Hrun.
  revert Hstatus Hprog Hrun. unfold stores_compiled_program.
  destruct NDEBUG.
  all: start_compile (context prog).
  all: destruct (macro_verdict (context prog)) eqn:Hv; fields.
  all: repeat exec_step.
  all: cbn [status_of unit_of]; intros Hstatus Hprog Hrun; try discriminate Hstatus.
  all: subst prog' w'; fields.
  all: eexists; (split; [rewrite <- ?app_assoc; reflexivity|]).
  all: split; intros Hn; try (exfalso; tauto); try reflexivity.
  all: rewrite <- ?app_assoc in *.
  all: match goal with
       | H : nvPTXCompilerGetCompiledProgramSize _ (_ ++ ?before) ?compiler = _ |- _ =>
           exists before, compiler
       end.
  all: eexists; (split; [rewrite <- ?app_assoc; reflexivity|]).
  all: rewrite <- ?app_assoc.
  all: repeat match goal with
       | H : ?call = (_, _) |- context [?call] => rewrite H; cbn [fst snd]
       end.
  all: reflexivity.
Qed.

(** X26: with libraries none of whose calls fails, every configuration that
    macro translation accepts is compiled: the exported call returns success
    with a unit for that configuration and leaves the last-error string as it
    was.  The unit has [use_stored_cubin] set exactly when the compilation is
    two-stage, and its cubin is then what [nvPTXCompilerGetCompiledProgram]
    wrote into a buffer of the size [nvPTXCompilerGetCompiledProgramSize]
    reported; after a single-stage compilation the unit holds no cubin. *)
Theorem tllmXqaJitCreateAndCompileProgram_succeeds iterate ext NDEBUG c w :
  libraries_succeed ext ->
  urem (num_q_heads c) (num_kv_heads c) = Some 0 ->
  valid_data_type c ->
  valid_kv_cache_type c ->
  exists prog' w',
    tllmXqaJitCreateAndCompileProgram iterate ext NDEBUG c w
    = (Returned (TLLM_XQA_JIT_SUCCESS, prog'), w') /\
    context prog' = c /\
    (use_stored_cubin prog' = true <-> needs_two_stage c) /\
    gErrorString w' = gErrorString w /\
    let created := libcalls w ++ [call_nvrtcCreateProgram (source_of (kernel_type c))] in
    exists new,
      libcalls w' = created ++ new /\
      (needs_two_stage c -> stores_compiled_program ext created [] prog' new) /\
      (~ needs_two_stage c -> cubin_data prog' = []).
Proof.
  intros Hs Hr Hd Hk.
  assert (exists q, macro_verdict c = MacrosAccepted q) as Hv
    by (eexists; by apply macro_verdict_accepted).
  rewrite tllmXqaJitCreateAndCompileProgram_run. cbn zeta.
  pose proof (proj1 Hs (libcalls w) (source_of (kernel_type c))) as Hcreate.
  destruct (nvrtcCreateProgram ext (libcalls w) _) as [created handle].
  cbn [fst snd] in *. subst created.
  destruct (compileProgram_succeeds iterate ext NDEBUG
    {| program := handle; context := c; cubin_data := []; use_stored_cubin := false |}
    (logged (call_nvrtcCreateProgram (source_of (kernel_type c))) w) Hs Hv)
    as (prog' & w' & Hrun).
  exists prog', w'. split; [exact Hrun|].
  pose proof (compileProgram_stored_cubin _ _ _ _ _ _ _ Hrun)
    as (new & Hnew & Hstores & Hnone).
  apply compileProgram_success in Hrun as (new' & _ & Herr & Htwo & Hone).
  cbn [context program cubin_data libcalls logged] in *.
  assert (context prog' = c /\ (use_stored_cubin prog' = true <-> needs_two_stage c))
    as [Hctx Hflag].
  { destruct (decide (needs_two_stage c)) as [Hneeds|Hneeds].
    - destruct (Htwo Hneeds) as (_ & Hstored & _ & Hctx). split; [exact Hctx|tauto].
    - destruct (Hone Hneeds) as (_ & ->). cbn [context use_stored_cubin].
      split; [reflexivity|]. split; [discriminate|tauto]. }
  split; [exact Hctx|]. split; [exact Hflag|]. split; [exact Herr|].
  exists new. split; [exact Hnew|]. split; [exact Hstores|exact Hnone].
Qed.


(** ** The further statements at sample inputs *)

Lemma getSMFlag_distinct_witness : (89 <> 90)%Z /\ getSMFlag 89 <> getSMFlag 90.
Proof. split; [lia|]. apply (getSMFlag_distinct 89 90). lia. Defined.

Lemma getPTXSMFlag_collisions_witness :
  getPTXSMFlag 89 = getPTXSMFlag 121 /\
  (getPTXSMFlag 100 = "-arch=compute_89" -> False).
Proof.
  destruct getPTXSMFlag_collisions as [H89 _]. split.
  - rewrite (proj2 (H89 89%Z)) by (left; reflexivity).
    rewrite (proj2 (H89 121%Z)) by (right; right; reflexivity). reflexivity.
  - intros E. apply (proj1 (H89 100%Z)) in E. lia.
Defined.

Lemma getMacroFlag_inj_witness :
  getMacroFlag "DTYPE" "__half" = "-DDTYPE=__half" /\
  forall name value,
    string_forall not_equals_sign name = true ->
    getMacroFlag name value = "-DDTYPE=__half" ->
    name = "DTYPE" /\ value = "__half".
Proof.
  split; [reflexivity|]. intros name value Hname E.
  apply (getMacroFlag_inj name value "DTYPE" "__half" Hname); [reflexivity|exact E].
Defined.

Lemma getMacroFlags_accepted_iff_witness :
  exists flags w',
    getMacroFlags map_to_list true ctx_sm90 [] initial_world
    = (Returned (TLLM_XQA_JIT_SUCCESS, flags), w').
Proof.
  apply (getMacroFlags_accepted_iff map_to_list true ctx_sm90 [] initial_world).
  split; [reflexivity|]. split; [left; reflexivity|].
  right. right. left. split; reflexivity.
Defined.

Lemma getMacroFlags_data_type_rejected_witness :
  getMacroFlags map_to_list true ctx_int8_data [] initial_world =
    (Returned (TLLM_XQA_JIT_INVALID_INPUT, []),
     with_error
       ("data_type must be DATA_TYPE_FP16 or DATA_TYPE_BF16 for non-MLA kernels "
        +:+ "and DATA_TYPE_E4M3 for the MLA kernel") initial_world).
Proof.
  apply (getMacroFlags_data_type_rejected map_to_list true ctx_int8_data [] initial_world).
  - reflexivity.
  - discriminate.
  - discriminate.
  - discriminate.
Defined.

Lemma getMacroFlags_E4M3_needs_MLA_witness :
  getMacroFlags map_to_list true ctx_e4m3_hmma [] initial_world
  = (Aborted AssertionFailure, initial_world).
Proof.
  apply (getMacroFlags_E4M3_needs_MLA map_to_list true ctx_e4m3_hmma [] initial_world).
  - reflexivity.
  - reflexivity.
  - discriminate.
Defined.

Lemma getMacroFlags_output_witness :
  getMacroFlags table_order false ctx_spec_dec [] initial_world
  = (run_macros_spec_dec.1, run_macros_spec_dec.2) /\
  exists text,
    libcalls run_macros_spec_dec.2 = libcalls initial_world ++ [call_puts text] /\
    String.prefix "XQA Macros: " text = true.
Proof.
  split; [vm_compute; reflexivity|].
  destruct (getMacroFlags_output table_order false ctx_spec_dec [] initial_world
              TLLM_XQA_JIT_SUCCESS (unit_of [] run_macros_spec_dec.1)
              run_macros_spec_dec.2 ltac:(vm_compute; reflexivity))
    as (_ & Hsuccess).
  exact (proj2 (Hsuccess eq_refl)).
Defined.




Lemma getMacroFlags_each_macro_once_witness :
  exists appended,
    unit_of [] run_macros_spec_dec.1 = [] ++ appended /\
    (forall name,
       string_forall not_equals_sign name = true ->
       (exists value, only_flag name value appended) \/ no_flag name appended) /\
    List.length appended = 18%nat.
Proof.
  apply (getMacroFlags_each_macro_once table_order table_order_perm false ctx_spec_dec []
           initial_world (unit_of [] run_macros_spec_dec.1) run_macros_spec_dec.2).
  vm_compute; reflexivity.
Defined.

Lemma getMacroFlags_zero_kv_heads_witness :
  getMacroFlags map_to_list true ctx_no_kv_heads [] initial_world
  = (Aborted DivisionByZero, initial_world) /\
  (compileProgram map_to_list ext_ok true (unit_of_context ctx_no_kv_heads)
     initial_world).1
  = Aborted DivisionByZero.
Proof.
  destruct (getMacroFlags_zero_kv_heads map_to_list ext_ok true ctx_no_kv_heads eq_refl)
    as [Hflags Hcompile].
  split; [apply Hflags|]. apply Hcompile. reflexivity.
Defined.

Lemma compileProgram_invalid_input_witness :
  compileProgram table_order ext_ok true (unit_of_context ctx_bad_heads) initial_world
  = (run_bad_heads.1, run_bad_heads.2) /\
  gErrorString run_bad_heads.2
  = gErrorString (getMacroFlags table_order true ctx_bad_heads [] initial_world).2 /\
  exists new,
    libcalls run_bad_heads.2 = libcalls initial_world ++ new /\ compiler_calls new = [].
Proof.
  split; [vm_compute; reflexivity|].
  destruct (compileProgram_invalid_input table_order ext_ok true
              (unit_of_context ctx_bad_heads) initial_world
              TLLM_XQA_JIT_INVALID_INPUT (unit_of_context ctx_bad_heads)
              run_bad_heads.2 ltac:(vm_compute; reflexivity))
    as (_ & Hrefused).
  exact (proj2 (Hrefused eq_refl)).
Defined.

Lemma compileProgram_internal_error_witness :
  compileProgram table_order ext_nvrtc_fails true (unit_of_context ctx_sm90) initial_world
  = (run_nvrtc_fails.1, run_nvrtc_fails.2) /\
  exists new failed,
    libcalls run_nvrtc_fails.2 = libcalls initial_world ++ new /\
    last (compiler_calls new) = Some failed /\
    gErrorString run_nvrtc_fails.2 =
      (if is_nvPTXCompiler_call failed
       then "nvPTXCompiler Internal Error" else "NVRTC Internal Error").
Proof.
  split; [vm_compute; reflexivity|].
  apply (compileProgram_internal_error table_order ext_nvrtc_fails true
           (unit_of_context ctx_sm90) initial_world
           (unit_of (unit_of_context ctx_sm90) run_nvrtc_fails.1)).
  vm_compute; reflexivity.
Defined.


Lemma tllmXqaJitCreateAndCompileProgram_keeps_program_witness :
  tllmXqaJitCreateAndCompileProgram table_order ext_ok true ctx_sm90
    (with_error "NVRTC Internal Error" initial_world)
  = (run_after_failure.1, run_after_failure.2) /\
  exists rest,
    libcalls run_after_failure.2 =
      libcalls initial_world ++ call_nvrtcCreateProgram mha_cu_content :: rest /\
    Forall (fun call => is_compile_step call = true) rest.
Proof.
  split; [vm_compute; reflexivity|].
  apply (tllmXqaJitCreateAndCompileProgram_keeps_program table_order ext_ok true ctx_sm90
           (with_error "NVRTC Internal Error" initial_world) run_after_failure.1).
  vm_compute; reflexivity.
Defined.

Lemma tllmXqaJitCreateAndCompileProgram_creation_fails_witness :
  tllmXqaJitCreateAndCompileProgram map_to_list ext_create_fails true ctx_no_kv_heads
    initial_world =
    (Returned
       (TLLM_XQA_JIT_INTERNAL_ERROR,
        {| program := 0; context := ctx_no_kv_heads;
           cubin_data := []; use_stored_cubin := false |}),
     {| gErrorString := "NVRTC Internal Error";
        libcalls := libcalls initial_world ++ [call_nvrtcCreateProgram mha_cu_content] |}).
Proof.
  apply (tllmXqaJitCreateAndCompileProgram_creation_fails map_to_list ext_create_fails true
           ctx_no_kv_heads initial_world 1 0).
  reflexivity.
Defined.

Lemma tllmXqaJitCreateAndCompileProgram_assertion_witness :
  exists new w',
    tllmXqaJitCreateAndCompileProgram map_to_list ext_ok true ctx_e4m3_hmma initial_world
    = (Aborted AssertionFailure, w') /\
    libcalls w' = libcalls initial_world ++ new /\
    compiler_calls new = [call_nvrtcCreateProgram mha_cu_content] /\
    gErrorString w' = gErrorString initial_world.
Proof.
  apply (tllmXqaJitCreateAndCompileProgram_assertion map_to_list ext_ok true ctx_e4m3_hmma
           initial_world 7).
  - reflexivity.
  - reflexivity.
  - discriminate.
  - reflexivity.
Defined.

(** A successful compilation after a failure: the old message is still the
    one the accessors hand out. *)
Lemma success_keeps_last_error_witness :
  tllmXqaJitCreateAndCompileProgram table_order ext_ok true ctx_sm90
    (with_error "NVRTC Internal Error" initial_world)
  = (run_after_failure.1, run_after_failure.2) /\
  status_of run_after_failure.1 = Some TLLM_XQA_JIT_SUCCESS /\
  gErrorString run_after_failure.2 = "NVRTC Internal Error".
Proof.
  split; [vm_compute; reflexivity|]. split; [reflexivity|].
  apply (proj1 (success_keeps_last_error table_order ext_ok true) ctx_sm90
           (with_error "NVRTC Internal Error" initial_world)
           (unit_of (unit_of_context ctx_sm90) run_after_failure.1)
           run_after_failure.2).
  vm_compute; reflexivity.
Defined.

Lemma stored_cubin_size_then_copy_witness :
  tllmXqaJitGetCUBINSize ext_nvrtc_fails unit_stored 0 initial_world
  = (Returned (TLLM_XQA_JIT_SUCCESS, 3), initial_world) /\
  tllmXqaJitGetCUBIN ext_nvrtc_fails unit_stored [x00; x00; x00] initial_world
  = (Returned (TLLM_XQA_JIT_SUCCESS, [x01; x02; x03]), initial_world) /\
  tllmXqaJitGetCUBIN ext_nvrtc_fails unit_stored [x00; x00] initial_world
  = (Aborted BufferOverflow, initial_world).
Proof.
  destruct (stored_cubin_size_then_copy ext_nvrtc_fails unit_stored initial_world eq_refl)
    as (Hsize & _ & Hcopy & Hshort).
  split; [apply Hsize|]. split; [apply Hcopy; reflexivity|]. apply Hshort. simpl. lia.
Defined.

Lemma cubin_after_compile_witness :
  compileProgram table_order ext_ok true (unit_of_context (with_sm 121 ctx_sm90))
    initial_world = (run_sm121.1, run_sm121.2) /\
  let prog' := unit_of (unit_of_context ctx_sm90) run_sm121.1 in
  tllmXqaJitGetCUBINSize ext_ok prog' 0 run_sm121.2
  = (Returned (TLLM_XQA_JIT_SUCCESS, N.of_nat (List.length (cubin_data prog'))),
     run_sm121.2) /\
  (tllmXqaJitGetCUBIN ext_ok prog' (replicate 4 x00) run_sm121.2).2 = run_sm121.2.
Proof.
  split; [vm_compute; reflexivity|]. intros prog'.
  destruct (cubin_after_compile table_order ext_ok true
              (unit_of_context (with_sm 121 ctx_sm90)) initial_world
              prog' run_sm121.2 ltac:(vm_compute; reflexivity) eq_refl)
    as (Htwo & _).
  apply Htwo. split; [right|]; reflexivity.
Defined.

Lemma tllmXqaJitGetLastErrorString_buffer_witness :
  exists size,
    tllmXqaJitGetLastErrorStringSize run_nvrtc_fails.2 = (Returned size, run_nvrtc_fails.2) /\
    size = 21 /\
    (exists output',
       tllmXqaJitGetLastErrorString (replicate 24 x01) run_nvrtc_fails.2
       = (Returned output', run_nvrtc_fails.2) /\
       List.length output' = 24%nat) /\
    tllmXqaJitGetLastErrorString (replicate 20 x01) run_nvrtc_fails.2
    = (Aborted BufferOverflow, run_nvrtc_fails.2).
Proof.
  assert (gErrorString run_nvrtc_fails.2 <> "") as Hne by discriminate.
  assert (string_forall not_NUL (gErrorString run_nvrtc_fails.2) = true) as Hnul
    by reflexivity.
  destruct (tllmXqaJitGetLastErrorString_buffer run_nvrtc_fails.2 (replicate 24 x01)
              Hne Hnul) as (size & Hsize & Hfits & _).
  destruct (tllmXqaJitGetLastErrorString_buffer run_nvrtc_fails.2 (replicate 20 x01)
              Hne Hnul) as (size' & Hsize' & _ & Hshort).
  assert (size = 21) as -> by (apply pair_inv in Hsize as [[= <-] _]; reflexivity).
  assert (size' = 21) as -> by (apply pair_inv in Hsize' as [[= <-] _]; reflexivity).
  exists 21. split; [exact Hsize|]. split; [reflexivity|]. split.
  - destruct Hfits as (output' & Hrun & Hlen & _); [simpl; lia|].
    exists output'. split; [exact Hrun|exact Hlen].
  - apply Hshort. simpl. lia.
Defined.

Lemma compileProgram_program_log_witness :
  compileProgram table_order ext_nvrtc_fails false (unit_of_context ctx_sm90)
    initial_world = (run_nvrtc_fails_debug.1, run_nvrtc_fails_debug.2) /\
  status_of run_nvrtc_fails_debug.1 = Some TLLM_XQA_JIT_INTERNAL_ERROR /\
  gErrorString run_nvrtc_fails_debug.2 = "NVRTC Internal Error".
Proof.
  split; [vm_compute; reflexivity|].
  destruct (compileProgram_program_log table_order ext_nvrtc_fails false
              (unit_of_context ctx_sm90) initial_world
              run_nvrtc_fails_debug.1 run_nvrtc_fails_debug.2
              ltac:(vm_compute; reflexivity))
    as (new & Hnew & _ & Hlog).
  apply (Hlog (call_nvrtcGetProgramLog 7)); [|reflexivity].
  change (libcalls run_nvrtc_fails_debug.2 = new) in Hnew. rewrite <- Hnew.
  unfold run_nvrtc_fails_debug. cbn [snd libcalls].
  repeat first [apply list_elem_of_here | apply list_elem_of_further].
Defined.

Lemma tllmXqaJitCreateAndCompileProgram_succeeds_witness :
  needs_two_stage (with_sm 120 ctx_sm90) /\
  exists prog' w',
    tllmXqaJitCreateAndCompileProgram map_to_list ext_writes_cubin false
      (with_sm 120 ctx_sm90) initial_world
    = (Returned (TLLM_XQA_JIT_SUCCESS, prog'), w') /\
    context prog' = with_sm 120 ctx_sm90 /\
    use_stored_cubin prog' = true /\
    gErrorString w' = gErrorString initial_world /\
    cubin_data prog' = [xcb; xcb; xcb].
Proof.
  assert (needs_two_stage (with_sm 120 ctx_sm90)) as Hneeds
    by (split; [left|]; reflexivity).
  split; [exact Hneeds|].
  destruct (tllmXqaJitCreateAndCompileProgram_succeeds map_to_list ext_writes_cubin false
              (with_sm 120 ctx_sm90) initial_world)
    as (prog' & w' & Hrun & Hctx & Hflag & Herr & new & _ & Hstores & _).
  - repeat split; reflexivity.
  - reflexivity.
  - left. reflexivity.
  - right. right. left. split; reflexivity.
  - exists prog', w'. split; [exact Hrun|]. split; [exact Hctx|].
    split; [exact (proj2 Hflag Hneeds)|]. split; [exact Herr|].
    destruct (Hstores Hneeds) as (before & compiler & rest & _ & ->). reflexivity.
Defined.

